(** * SGU Story Weaver (app.py): a shallow embedding and its properties

    The program is a single Streamlit script.  It resolves an API key,
    selects a Gemini model, builds a prompt from a fixed campus context and
    the text typed by the user, calls the provider once, extracts the text of
    the response and renders one of four results.

    The embedding follows the script function by function:
      - Python [str] values are lists of Unicode code points;
      - duck-typed objects are records whose optional attributes are
        [option] fields ([hasattr] is [Some]/[None]);
      - calls into Streamlit and into the provider are recorded, in order, in
        a trace of events; [st.stop()] and raised exceptions are the two
        abnormal outcomes of a run. *)

From Stdlib Require Import List String Ascii NArith Bool Arith Lia QArith.
Import ListNotations.

Set Implicit Arguments.

(* ===================================================================== *)
(** ** Python strings *)
(* ===================================================================== *)

(** A Python [str] is a sequence of code points. *)
Definition char := N.
Definition str := list char.

(** Source literals are written as UTF-8 text and decoded to code points.
    A truncated sequence decodes to U+FFFD; no literal of the program has
    one. *)
Definition cont (b : ascii) : N := N.land (N_of_ascii b) 0x3F.

Fixpoint utf8 (s : string) : str :=
  match s with
  | EmptyString => []
  | String a s1 =>
    let b0 := N_of_ascii a in
    if (b0 <? 0xC0)%N then b0 :: utf8 s1
    else
      match s1 with
      | EmptyString => [0xFFFD%N]
      | String b1 s2 =>
        if (b0 <? 0xE0)%N then
          (N.shiftl (N.land b0 0x1F) 6 + cont b1)%N :: utf8 s2
        else
          match s2 with
          | EmptyString => [0xFFFD%N]
          | String b2 s3 =>
            if (b0 <? 0xF0)%N then
              (N.shiftl (N.land b0 0x0F) 12 + N.shiftl (cont b1) 6
               + cont b2)%N :: utf8 s3
            else
              match s3 with
              | EmptyString => [0xFFFD%N]
              | String b3 s4 =>
                (N.shiftl (N.land b0 0x07) 18 + N.shiftl (cont b1) 12
                 + N.shiftl (cont b2) 6 + cont b3)%N :: utf8 s4
              end
          end
      end
  end.

(** The double quote, which a literal cannot hold. *)
Definition dq : string := String "034"%char EmptyString.

(** [bool(s)] for a string: non-empty. *)
Definition str_truthy (s : str) : bool :=
  match s with [] => false | _ :: _ => true end.

(** [bool(x)] for a value that is [None] or a string. *)
Definition opt_str_truthy (x : option str) : bool :=
  match x with None => false | Some s => str_truthy s end.

(** [a == b] on strings. *)
Fixpoint str_eqb (a b : str) : bool :=
  match a, b with
  | [], [] => true
  | x :: a', y :: b' => (x =? y)%N && str_eqb a' b'
  | _, _ => false
  end.

(** [x in l] for a list of strings. *)
Definition str_in (x : str) (l : list str) : bool :=
  existsb (fun y => str_eqb y x) l.

(** [str.isspace] on one code point, as CPython's [_PyUnicode_IsWhitespace]:
    the characters [str.strip()] removes. *)
Definition isspace (c : char) : bool :=
  ((0x09 <=? c) && (c <=? 0x0D)
   || (0x1C <=? c) && (c <=? 0x20)
   || (c =? 0x85) || (c =? 0xA0) || (c =? 0x1680)
   || (0x2000 <=? c) && (c <=? 0x200A)
   || (c =? 0x2028) || (c =? 0x2029) || (c =? 0x202F)
   || (c =? 0x205F) || (c =? 0x3000))%N.

Fixpoint lstrip (s : str) : str :=
  match s with
  | [] => []
  | c :: s' => if isspace c then lstrip s' else s
  end.

Definition rstrip (s : str) : str := rev (lstrip (rev s)).

(** [s.strip()] *)
Definition strip (s : str) : str := rstrip (lstrip s).

(** Decimal rendering of a number, most significant digit first. *)
Definition digit_char (d : N) : char := (0x30 + d)%N.

Fixpoint decimal_fuel (fuel : nat) (n : N) (acc : str) : str :=
  match fuel with
  | O => acc
  | S fuel' =>
    let acc' := digit_char (n mod 10) :: acc in
    if (n / 10 =? 0)%N then acc' else decimal_fuel fuel' (n / 10)%N acc'
  end.

(** [str(n)]: a number below [2^k] has at most [k] digits. *)
Definition decimal (n : N) : str :=
  decimal_fuel (S (N.to_nat (N.size n))) n [].

(** ["%02d" % n] *)
Definition pad2 (n : N) : str :=
  if (n <? 10)%N then digit_char 0 :: decimal n else decimal n.

(* ===================================================================== *)
(** ** Objects exchanged with the provider *)
(* ===================================================================== *)

(** An element of [genai.list_models()]. *)
Module ModelInfo.
Record t : Type := { name : str; supported_generation_methods : list str }.
End ModelInfo.

(** [genai.GenerativeModel(model_name)]: the handle kept in [model]. *)
Record GenerativeModel : Type := { model_name : str }.

(** [genai.types.GenerationConfig(...)] *)
Record GenerationConfig : Type :=
  { temperature : Q; top_p : Q; top_k : N; max_output_tokens : N }.

(** One dictionary of [safety_settings]. *)
Record SafetySetting : Type := { category : str; threshold : str }.

(** A content part; [text] is [None] when [hasattr(part, 'text')] is false. *)
Module Part.
Record t : Type := { text : option str }.
End Part.

(** The enumeration member held by [feedback.block_reason]. *)
Module BlockReason.
Record t : Type := { name : str }.
End BlockReason.

(** A prompt feedback object whose truth value is true; [block_reason] is
    [None] when [hasattr(feedback, 'block_reason')] is false.  The script
    only tests [feedback] for truth before it reads the attribute, so a
    feedback that is [None] or any other false value is the [None] of
    [option PromptFeedback.t]. *)
Module PromptFeedback.
Record t : Type := { block_reason : option BlockReason.t }.
End PromptFeedback.

(** The response of [generate_content], probed by attribute:
    [parts] and [text] are [None] when [hasattr] is false;
    [prompt_feedback] is [getattr(response, 'prompt_feedback', None)]. *)
Module Response.
Record t : Type :=
  { parts : option (list Part.t);
    text : option str;
    prompt_feedback : option PromptFeedback.t }.
End Response.

(** The result of a call into a library: a value, or an [Exception] given
    by its message [str(e)]. *)
Inductive call_result (A : Type) : Type :=
| Success (a : A)
| Failure (e : str).
Arguments Failure {A} e.

(** [time.localtime()] *)
Record struct_time : Type :=
  { tm_year : N; tm_mon : N; tm_mday : N;
    tm_hour : N; tm_min : N; tm_sec : N }.

(* ===================================================================== *)
(** ** Effects: the trace of calls, [st.stop()] and exceptions *)
(* ===================================================================== *)

(** Calls into Streamlit and into the provider, in the order made. *)
Inductive event : Type :=
| st_set_page_config (page_title page_icon layout : str)
| st_sidebar_info (body : str)
| st_sidebar_success (body : str)
| st_sidebar_warning (body : str)
| st_error (body : str)
| st_info (body : str)
| st_warning (body : str)
| st_json (body : list str)
| st_image (image : str) (width : N)
| st_title (body : str)
| st_markdown (body : str) (unsafe_allow_html : bool)
| st_subheader (body : str)
| st_expander (label : str)
| st_text_area (label placeholder : str) (height max_chars : N) (key : str)
| st_columns (spec : list Q)
| st_button (label button_type : str) (use_container_width disabled : bool)
            (key : str)
| st_spinner (text : str)
| st_container (border : bool)
| st_download_button (label data file_name mime : str)
                     (use_container_width : bool) (key : str)
| genai_configure (api_key : str)
| genai_list_models
| genai_generate_content (m : GenerativeModel) (contents : str)
                         (generation_config : GenerationConfig)
                         (safety_settings : list SafetySetting).

(** How a piece of the script ends: it returns, it raises an [Exception], or
    it calls [st.stop()].  Streamlit's [StopException] derives from
    [BaseException], so [except Exception] does not catch it. *)
Inductive outcome (A : Type) : Type :=
| Returned (a : A)
| Raised (e : str)
| Stopped.
Arguments Raised {A} e.
Arguments Stopped {A}.

(** A run: the events emitted, then the outcome. *)
Definition run (A : Type) : Type := (list event * outcome A)%type.

Definition ret {A : Type} (a : A) : run A := ([], Returned a).

Definition bind {A B : Type} (m : run A) (k : A -> run B) : run B :=
  match m with
  | (t, Returned a) => let (t', o) := k a in (t ++ t', o)
  | (t, Raised e) => (t, Raised e)
  | (t, Stopped) => (t, Stopped)
  end.

Notation "x <- c1 ;; c2" := (bind c1 (fun x => c2))
  (at level 61, c1 at next level, right associativity).
Notation "c1 ;; c2" := (bind c1 (fun _ => c2))
  (at level 61, right associativity).
Notation "' pat <- c1 ;; c2" :=
  (bind c1 (fun x => match x with pat => c2 end))
  (at level 61, pat pattern, c1 at next level, right associativity).

Definition emit (e : event) : run unit := ([e], Returned tt).

(** [st.stop()] *)
Definition st_stop {A : Type} : run A := ([], Stopped).

(** A library call that may raise. *)
Definition call {A : Type} (r : call_result A) : run A :=
  match r with
  | Success a => ret a
  | Failure e => ([], Raised e)
  end.

(** [try: body  except Exception as e: handler e] *)
Definition try_except {A : Type} (body : run A) (handler : str -> run A)
  : run A :=
  match body with
  | (t, Raised e) => let (t', o) := handler e in (t ++ t', o)
  | _ => body
  end.

Definition trace {A : Type} (m : run A) : list event := fst m.
Definition result {A : Type} (m : run A) : outcome A := snd m.

(* ===================================================================== *)
(** ** The surroundings of one script run *)
(* ===================================================================== *)

Record World : Type :=
  { (** [hasattr(st, 'secrets')] *)
    hasattr_st_secrets : bool;
    (** the mapping behind [st.secrets]; reading it raises when the
        deployment provides no secrets *)
    st_secrets : call_result (list (str * str));
    (** the process environment, after [load_dotenv()] *)
    os_environ : list (str * str);
    (** [genai.list_models()], iterated to its end *)
    list_models : call_result (list ModelInfo.t);
    (** [_model.generate_content(...)] *)
    generate_content :
      GenerativeModel -> str -> GenerationConfig -> list SafetySetting ->
      call_result Response.t;
    (** the value of the text area *)
    user_story_prompt : str;
    (** what [st.button] returns *)
    generate_button : bool;
    (** [time.localtime()] at the moment of the download button *)
    localtime : struct_time }.

(** [key in mapping] and [mapping[key]] / [os.getenv(key)]. *)
Fixpoint lookup (key : str) (m : list (str * str)) : option str :=
  match m with
  | [] => None
  | (k, v) :: m' => if str_eqb k key then Some v else lookup key m'
  end.

Definition os_getenv (w : World) (key : str) : option str :=
  lookup key (os_environ w).

(* ===================================================================== *)
(** ** Credential resolution: [get_api_key] *)
(* ===================================================================== *)

Definition FREE_GEMINI_MODEL : str := utf8 "models/gemini-2.5-flash".

Definition GEMINI_API_KEY : str := utf8 "GEMINI_API_KEY".

Definition api_key_not_found : str :=
  utf8 ("
    🔐 **Gemini API Key Not Found!**

    Please set your Gemini API key using one of the following methods:

    **1. Streamlit Cloud:**
       Add the following in your app's Secrets:
       ```toml
       GEMINI_API_KEY=" ++ dq ++ "YOUR_API_KEY" ++ dq ++ "
       ```

    **2. Local Development:**
       Create a `.env` file and add:
       ```
       GEMINI_API_KEY=YOUR_API_KEY
       ```
    Get your key from [Google AI Studio](https://aistudio.google.com/).
    ").

(** The [try] block of [get_api_key]: [Some v] when it returns [v] from the
    function, [None] when control leaves the block. *)
Definition get_api_key_from_secrets (w : World) : run (option str) :=
  try_except
    (if hasattr_st_secrets w then
       secrets <- call (st_secrets w) ;;
       match lookup GEMINI_API_KEY secrets with
       | Some v =>
         emit (st_sidebar_info
                 (utf8 "🔑 Using API Key from Streamlit secrets.")) ;;
         ret (Some v)
       | None => ret None
       end
     else ret None)
    (fun _ => ret None).

Definition get_api_key (w : World) : run str :=
  found <- get_api_key_from_secrets w ;;
  match found with
  | Some v => ret v
  | None =>
    match os_getenv w GEMINI_API_KEY with
    | Some api_key =>
      if str_truthy api_key then
        emit (st_sidebar_info
                (utf8 "🔑 Using API Key from local environment variable.")) ;;
        ret api_key
      else emit (st_error api_key_not_found) ;; st_stop
    | None => emit (st_error api_key_not_found) ;; st_stop
    end
  end.

(* ===================================================================== *)
(** ** Model selection: [configure_gemini] *)
(* ===================================================================== *)

Definition fallback_model : str := utf8 "models/gemini-pro".

(** The comprehension over [genai.list_models()]. *)
Definition available_models_of (models : list ModelInfo.t) : list str :=
  map ModelInfo.name
      (filter (fun m => str_in (utf8 "generateContent")
                               (ModelInfo.supported_generation_methods m))
              models).

(** The body of the [try] block of [configure_gemini]. *)
Definition select_model (w : World) (api_key : str)
  : run (option GenerativeModel) :=
  emit (genai_configure api_key) ;;
  emit genai_list_models ;;
  models <- call (list_models w) ;;
  let available_models := available_models_of models in
  if str_in FREE_GEMINI_MODEL available_models then
    emit (st_sidebar_success
            (utf8 "✅ Using model: `" ++ FREE_GEMINI_MODEL ++ utf8 "`")) ;;
    ret (Some {| model_name := FREE_GEMINI_MODEL |})
  else if str_in fallback_model available_models then
    emit (st_sidebar_warning
            (utf8 "⚠️ `" ++ FREE_GEMINI_MODEL
             ++ utf8 "` not found. Falling back to `" ++ fallback_model
             ++ utf8 "`.")) ;;
    ret (Some {| model_name := fallback_model |})
  else
    emit (st_error
            (utf8 "❌ No valid Gemini models found for content generation.")) ;;
    emit (st_info (utf8 "Available models supporting 'generateContent':")) ;;
    emit (st_json available_models) ;;
    st_stop.

Definition configure_gemini (w : World) : run (option GenerativeModel) :=
  api_key <- get_api_key w ;;
  if negb (str_truthy api_key) then ret None
  else
    try_except
      (select_model w api_key)
      (fun e =>
         emit (st_error (utf8 "😥 Failed to configure Gemini: " ++ e)) ;;
         st_stop).

(* ===================================================================== *)
(** ** Prompt assembly and the generation call: [generate_sgu_story] *)
(* ===================================================================== *)

Definition SGU_CONTEXT : str :=
  utf8 "
## SGU Campus Context 

**Sanjay Ghodawat University (SGU)** is a large, modern State Private University spread over **165 acres** on the **Kolhapur-Sangli Highway, Atigre, Kolhapur**. It's part of the diverse Sanjay Ghodawat Group, bringing a strong industrial connection.

**Key Academic Areas & Schools (likely in distinct buildings/blocks):**
* School of Engineering & Technology (housing departments like Aeronautical, Civil, Computer Science & Engineering (CSE), AI & Machine Learning (AI&ML), Electronics & Communication (E&C))
* School of Computer Applications (BCA, MCA)
* School of Commerce & Management (B.Com, BBA, MBA - including specializations like Business Analytics, Disaster Management)
* School of Physical and Chemical Sciences (Physics - including Space Science/Nano Science, Chemistry)
* School of Life Sciences (Medical Lab Technology, Food Science & Technology, Biotechnology)
* School of Pharmaceutical Science (D.Pharm, B.Pharm, M.Pharm)
* School of Design (B.Des covering Fashion, Product, Interior, Communication, Animation, Game Design)
* School of Media (Journalism & Mass Communication)
* School of Social Science (History, Geography, Political Science, English)
* School of Legal Studies (Law) (BA LLB, BBA LLB, LLB)

**Specific Campus Facilities & Landmarks:**
* **Central Library:** A key hub for studying and resources. 
* **Hostels:** Separate residential facilities for students.
* **Sports Facilities:** Includes a **Stadium**, **Playgrounds**, courts, and a **Swimming Pool**. 
* **Advanced Laboratories:** Sophisticated labs for various science and tech fields.
* **Specialized Centers:** High-End Simulation & Robotic Lab, Industry 4.0 C4i4 Lab, Center for Space and Atmospheric Science (CSAS), TATA Technologies Centre, BOSCH Mechatronics Lab.
* **Auditorium:** For major events, gatherings, and maybe celebrity visits.
* **Food Court / Canteen:** Social spots for meals and breaks.
* **SGU Music Academy:** A dedicated place for musical activities.
* **Star Local Mart:** An on-campus convenience store.
* **Well-Equipped Classrooms & Sophisticated Computer Labs.**
* **Green Spaces:** Gardens and pathways. 
* **Parking Areas.**

**Campus Vibe:** Focuses on **Project & Design Based Learning**, strong **Industry Connections** (internships, placements with recruiters like TCS, Infosys, Capgemini, etc.), and aims for overall student development and character building. Has global partnerships (Study Abroad programs with universities in USA, UK, Australia) and hosts events like convocations and potentially fests or celebrity interactions.
".

Definition prompt_head : str :=
  utf8 "
You are a creative storyteller. Write a short, engaging story (around 250–400 words)
that takes place entirely on the campus of Sanjay Ghodawat University (SGU), Kolhapur.
You should explain whole story in simple english so that any age group can read the story easily.

**SGU Campus Details:**
".

Definition prompt_idea : str :=
  utf8 "

**User's Story Idea:**
".

Definition prompt_instructions : str :=
  utf8 "

**Instructions:**
1. Make the story feel authentic to the SGU campus experience.
2. Mention at least 2-3 specific SGU locations (e.g., Central Library, Food Court, School of Technology building, Stadium, Star Local Mart, Robotic Lab).
3. Ensure the story is appropriate for all audiences and positive in tone.
4. Generate *only* the story text, using clear paragraphs. Do not add a title.
5. Please make sure that story is easy to read by any age group.

**Story:**
".

(** The f-string [full_prompt]. *)
Definition full_prompt (user_prompt : str) : str :=
  prompt_head ++ SGU_CONTEXT ++ prompt_idea ++ user_prompt
  ++ prompt_instructions.

Definition generation_config : GenerationConfig :=
  {| temperature := 0.75; top_p := 0.85; top_k := 40;
     max_output_tokens := 2048 |}.

Definition safety_settings : list SafetySetting :=
  [ {| category := utf8 "HARM_CATEGORY_HARASSMENT";
       threshold := utf8 "BLOCK_MEDIUM_AND_ABOVE" |};
    {| category := utf8 "HARM_CATEGORY_HATE_SPEECH";
       threshold := utf8 "BLOCK_MEDIUM_AND_ABOVE" |};
    {| category := utf8 "HARM_CATEGORY_SEXUALLY_EXPLICIT";
       threshold := utf8 "BLOCK_MEDIUM_AND_ABOVE" |};
    {| category := utf8 "HARM_CATEGORY_DANGEROUS_CONTENT";
       threshold := utf8 "BLOCK_MEDIUM_AND_ABOVE" |} ].

(** [sep.join(items)] *)
Fixpoint str_join (sep : str) (items : list str) : str :=
  match items with
  | [] => []
  | [x] => x
  | x :: rest => x ++ sep ++ str_join sep rest
  end.

(** The generator [part.text for part in parts if hasattr(part, 'text')]. *)
Fixpoint part_texts (parts : list Part.t) : list str :=
  match parts with
  | [] => []
  | part :: rest =>
    match Part.text part with
    | Some t => t :: part_texts rest
    | None => part_texts rest
    end
  end.

(** The value of [story_text] after the [if]/[elif] on the response. *)
Definition story_text_of (response : Response.t) : option str :=
  match Response.parts response with
  | Some ((_ :: _) as parts) => Some (str_join [] (part_texts parts))
  | _ =>
    match Response.text response with
    | Some ((_ :: _) as text) => Some text
    | _ => None
    end
  end.

Definition generate_sgu_story (w : World) (user_prompt : str)
           (_model : option GenerativeModel)
  : run (option str * option PromptFeedback.t) :=
  match _model with
  | None =>
    emit (st_error (utf8 "Model not initialized.")) ;;
    ret (None, None)
  | Some m =>
    let full_prompt := full_prompt user_prompt in
    try_except
      (emit (genai_generate_content m full_prompt generation_config
                                    safety_settings) ;;
       response <- call (generate_content w m full_prompt generation_config
                                          safety_settings) ;;
       let feedback := Response.prompt_feedback response in
       let story_text := story_text_of response in
       ret (story_text, feedback))
      (fun e =>
         emit (st_error (utf8 "❌ API Error during generation: " ++ e)) ;;
         emit (st_info
                 (utf8 "Check network, API key, or prompt complexity.")) ;;
         ret (None, None))
  end.

(* ===================================================================== *)
(** ** The page: [main], [display_footer] and the script *)
(* ===================================================================== *)

Definition story_ideas : str :=
  utf8 "
        * A student makes an unexpected friend while studying late in the **Central Library**.
        * Two rivals from the **School of Technology** become partners during a project in the **Robotic Lab**.
        * A shy musician finds courage to perform at the **SGU Music Academy**.
        * A group discussion over snacks at the **Food Court** sparks a brilliant idea.
        * Finding something unusual near the **Stadium** during an evening walk.
        * A chance encounter at the **Star Local Mart**.
        ".

Definition footer_html : str :=
  utf8 ("
        <div style='text-align: center; font-size: 0.85em; color: #777;'>
            <p>Powered by Google Gemini | Built with Streamlit</p>
            <p>
               <a href=" ++ dq ++ "https://github.com/GauravPatil04/StoryMaker" ++ dq ++ " target=" ++ dq ++ "_blank" ++ dq ++ " style=" ++ dq ++ "color: black;" ++ dq ++ ">View on GitHub</a> </p>
        </div>
        ").

(** [time.strftime('%Y%m%d_%H%M%S')] on the local time. *)
Definition strftime_Ymd_HMS (t : struct_time) : str :=
  decimal (tm_year t) ++ pad2 (tm_mon t) ++ pad2 (tm_mday t)
  ++ utf8 "_" ++ pad2 (tm_hour t) ++ pad2 (tm_min t) ++ pad2 (tm_sec t).

(** The string held by a truthy [story_text]. *)
Definition str_of (x : option str) : str :=
  match x with Some s => s | None => [] end.

(** [feedback and hasattr(feedback, 'block_reason')], giving the attribute. *)
Definition feedback_block_reason (feedback : option PromptFeedback.t)
  : option BlockReason.t :=
  match feedback with
  | Some fb => PromptFeedback.block_reason fb
  | None => None
  end.

(** [bool(feedback)] *)
Definition feedback_truthy (feedback : option PromptFeedback.t) : bool :=
  match feedback with Some _ => true | None => false end.

(** The [if]/[elif]/[else] chain of [main] that displays results or errors. *)
Definition display_result (w : World) (story_text : option str)
           (feedback : option PromptFeedback.t) : run unit :=
  if opt_str_truthy story_text then
    emit (st_markdown (utf8 "---") false) ;;
    emit (st_subheader (utf8 "📜 Your SGU Story:")) ;;
    emit (st_container true) ;;
    emit (st_markdown (str_of story_text) false) ;;
    let timestamp := strftime_Ymd_HMS (localtime w) in
    emit (st_download_button
            (utf8 "📥 Download Story (.txt)")
            (str_of story_text)
            (utf8 "sgu_story_" ++ timestamp ++ utf8 ".txt")
            (utf8 "text/plain")
            true
            (utf8 "download_" ++ timestamp))
  else
    match feedback_block_reason feedback with
    | Some reason =>
      emit (st_error
              (utf8 "🚫 Story generation was blocked due to safety settings.")) ;;
      emit (st_info (utf8 "Reason: `" ++ BlockReason.name reason
                     ++ utf8 "`")) ;;
      emit (st_warning
              (utf8 "Please try rephrasing your prompt to be clearer and avoid sensitive topics."))
    | None =>
      if negb (opt_str_truthy story_text) && negb (feedback_truthy feedback)
      then ret tt
      else
        emit (st_warning
                (utf8 "⚠️ No story was generated. This might be due to the prompt or API issues. Please try again or rephrase."))
    end.

(** [main()]; the global [model] is passed as an argument. *)
Definition main (w : World) (model : option GenerativeModel) : run unit :=
  emit (st_image (utf8 "images/SGU_Logo.jpg") 550) ;;
  emit (st_title (utf8 "📖 SGU Story Weaver ✨")) ;;
  emit (st_markdown
          (utf8 "Weave a tale set right here on the **Sanjay Ghodawat University** campus!")
          false) ;;
  emit (st_expander (utf8 "💡 Need inspiration? Click for story ideas!")) ;;
  emit (st_markdown story_ideas false) ;;
  emit (st_text_area
          (utf8 "**What should your SGU story be about?** (Be descriptive!)")
          (utf8 "e.g., A first-year student feeling nervous on their way to the School of Engineering & Technology...")
          120 500 (utf8 "user_story_prompt")) ;;
  let user_prompt := user_story_prompt w in
  emit (st_columns [1; 1.5; 1]) ;;
  emit (st_button (utf8 "✨ Weave My Story!") (utf8 "primary") true
                  (negb (str_truthy (strip user_prompt)))
                  (utf8 "generate_button")) ;;
  let clicked := generate_button w in
  if clicked && str_truthy (strip user_prompt) then
    emit (st_spinner
            (utf8 "✍️ Gemini is crafting your SGU story... Please wait.")) ;;
    ' (story_text, feedback) <-
        generate_sgu_story w (strip user_prompt) model ;;
    display_result w story_text feedback
  else ret tt.

Definition display_footer : run unit :=
  emit (st_markdown (utf8 "---") false) ;;
  emit (st_markdown footer_html true).

(** The script, top to bottom, run as [__main__]. *)
Definition script (w : World) : run unit :=
  emit (st_set_page_config (utf8 "SGU Story Weaver") (utf8 "📖")
                           (utf8 "centered")) ;;
  model <- configure_gemini w ;;
  match model with
  | Some _ =>
    main w model ;;
    display_footer
  | None =>
    emit (st_warning
            (utf8 "❌ Cannot start app — AI model failed to initialize."))
  end.

(* ===================================================================== *)
(** ** Worlds used to run the script on concrete inputs *)
(* ===================================================================== *)

Definition a_model : GenerativeModel := {| model_name := FREE_GEMINI_MODEL |}.

Definition noon : struct_time :=
  {| tm_year := 2025; tm_mon := 4; tm_mday := 9;
     tm_hour := 12; tm_min := 0; tm_sec := 7 |}.

(** A deployment with a key in the environment only, the primary model on
    offer, the given text typed and the button pressed, and a provider that
    answers every request with [answer]. *)
Definition world_answering (typed : str) (answer : call_result Response.t)
  : World :=
  {| hasattr_st_secrets := true;
     st_secrets := Failure (utf8 "No secrets files found.");
     os_environ := [(utf8 "HOME", utf8 "/root"); (GEMINI_API_KEY, utf8 "k3y")];
     list_models :=
       Success [ {| ModelInfo.name := FREE_GEMINI_MODEL;
                    ModelInfo.supported_generation_methods :=
                      [utf8 "generateContent"; utf8 "countTokens"] |} ];
     generate_content := fun _ _ _ _ => answer;
     user_story_prompt := typed;
     generate_button := true;
     localtime := noon |}.

(** A deployment where only the fallback, or neither model, is on offer. *)
Definition world_offering (names : list str) : World :=
  {| hasattr_st_secrets := false;
     st_secrets := Failure [];
     os_environ := [(GEMINI_API_KEY, utf8 "k3y")];
     list_models :=
       Success (map (fun n =>
                       {| ModelInfo.name := n;
                          ModelInfo.supported_generation_methods :=
                            [utf8 "generateContent"] |}) names);
     generate_content := fun _ _ _ _ => Failure [];
     user_story_prompt := [];
     generate_button := false;
     localtime := noon |}.

Definition hello_world_parts : list Part.t :=
  [ {| Part.text := Some (utf8 "Hello ") |};
    {| Part.text := Some (utf8 "world") |} ].

Definition safety_feedback : PromptFeedback.t :=
  {| PromptFeedback.block_reason :=
       Some {| BlockReason.name := utf8 "SAFETY" |} |}.

(** No parts, no text field, feedback with block reason SAFETY. *)
Definition safety_blocked_response : Response.t :=
  {| Response.parts := None;
     Response.text := None;
     Response.prompt_feedback := Some safety_feedback |}.

(* ===================================================================== *)
(** ** Vocabulary of the specification *)
(* ===================================================================== *)

(** The text of every part that carries text, in sequence order. *)
Definition carried_texts (parts : list Part.t) : list str :=
  flat_map (fun p => match Part.text p with Some t => [t] | None => [] end)
           parts.

(** The response exposes no non-empty sequence of parts. *)
Definition no_parts (r : Response.t) : Prop :=
  Response.parts r = None \/ Response.parts r = Some [].

(** The response exposes no non-empty direct text field. *)
Definition no_text (r : Response.t) : Prop :=
  Response.text r = None \/ Response.text r = Some [].

(** The four outcomes of section 4.5, in priority order. *)
Inductive outcome_class : Type :=
| RenderStory (story : str)
| BlockedBySafety (reason : str)
| AlreadyReported
| NoStoryGenerated.

(** Classification as the specification words it: text present; else
    feedback present with a block reason; else feedback absent; else
    feedback present without a block reason. *)
Definition classify (story_text : option str)
           (feedback : option PromptFeedback.t) : outcome_class :=
  match story_text, feedback with
  | Some (c :: s), _ => RenderStory (c :: s)
  | _, Some {| PromptFeedback.block_reason := Some reason |} =>
    BlockedBySafety (BlockReason.name reason)
  | _, None => AlreadyReported
  | _, Some {| PromptFeedback.block_reason := None |} => NoStoryGenerated
  end.

(** What each outcome shows. *)
Definition shown (w : World) (o : outcome_class) : list event :=
  match o with
  | RenderStory story =>
    [ st_markdown (utf8 "---") false;
      st_subheader (utf8 "📜 Your SGU Story:");
      st_container true;
      st_markdown story false;
      st_download_button
        (utf8 "📥 Download Story (.txt)") story
        (utf8 "sgu_story_" ++ strftime_Ymd_HMS (localtime w) ++ utf8 ".txt")
        (utf8 "text/plain") true
        (utf8 "download_" ++ strftime_Ymd_HMS (localtime w)) ]
  | BlockedBySafety reason =>
    [ st_error
        (utf8 "🚫 Story generation was blocked due to safety settings.");
      st_info (utf8 "Reason: `" ++ reason ++ utf8 "`");
      st_warning
        (utf8 "Please try rephrasing your prompt to be clearer and avoid sensitive topics.") ]
  | AlreadyReported => []
  | NoStoryGenerated =>
    [ st_warning
        (utf8 "⚠️ No story was generated. This might be due to the prompt or API issues. Please try again or rephrase.") ]
  end.

(** The events that render a story or offer it for download. *)
Definition renders_story (e : event) : bool :=
  match e with
  | st_markdown _ _ | st_subheader _ | st_container _
  | st_download_button _ _ _ _ _ _ => true
  | _ => false
  end.

(** What the deployment secret facility yields for the credential, if
    anything. *)
Definition secret_credential (w : World) : option str :=
  if hasattr_st_secrets w then
    match st_secrets w with
    | Success secrets => lookup GEMINI_API_KEY secrets
    | Failure _ => None
    end
  else None.

(** The facility is unavailable, or the credential is absent from it. *)
Definition no_secret_credential (w : World) : Prop :=
  hasattr_st_secrets w = false
  \/ (exists e, st_secrets w = Failure e)
  \/ (exists secrets, st_secrets w = Success secrets
                      /\ lookup GEMINI_API_KEY secrets = None).

(** The widgets [main] draws on every run, before it looks at the click. *)
Definition page (w : World) : list event :=
  [ st_image (utf8 "images/SGU_Logo.jpg") 550;
    st_title (utf8 "📖 SGU Story Weaver ✨");
    st_markdown
      (utf8 "Weave a tale set right here on the **Sanjay Ghodawat University** campus!")
      false;
    st_expander (utf8 "💡 Need inspiration? Click for story ideas!");
    st_markdown story_ideas false;
    st_text_area
      (utf8 "**What should your SGU story be about?** (Be descriptive!)")
      (utf8 "e.g., A first-year student feeling nervous on their way to the School of Engineering & Technology...")
      120 500 (utf8 "user_story_prompt");
    st_columns [1; 1.5; 1];
    st_button (utf8 "✨ Weave My Story!") (utf8 "primary") true
              (negb (str_truthy (strip (user_story_prompt w))))
              (utf8 "generate_button") ].

(** What [main] does under its [if clicked and user_prompt.strip()]. *)
Definition on_click (w : World) (model : option GenerativeModel) : run unit :=
  emit (st_spinner
          (utf8 "✍️ Gemini is crafting your SGU story... Please wait.")) ;;
  ' (story_text, feedback) <-
      generate_sgu_story w (strip (user_story_prompt w)) model ;;
  display_result w story_text feedback.

(** A call of the provider's generation operation. *)
Definition is_generation_call (e : event) : bool :=
  match e with genai_generate_content _ _ _ _ => true | _ => false end.

(** A button. *)
Definition is_button (e : event) : bool :=
  match e with st_button _ _ _ _ _ => true | _ => false end.

(** A pattern of fixed length: literal characters and [\d].  The digits of
    the pattern are matched against the ASCII digits, which [\d] includes. *)
Inductive pattern_item : Type :=
| Lit (c : char)
| Digit.

Definition is_digit (c : char) : bool := ((0x30 <=? c) && (c <=? 0x39))%N.

Fixpoint fullmatch (p : list pattern_item) (s : str) : bool :=
  match p, s with
  | [], [] => true
  | Lit c :: p', x :: s' => (x =? c)%N && fullmatch p' s'
  | Digit :: p', x :: s' => is_digit x && fullmatch p' s'
  | _, _ => false
  end.

(** [sgu_story_\d{8}_\d{6}\.txt] *)
Definition sgu_story_pattern : list pattern_item :=
  map Lit (utf8 "sgu_story_") ++ repeat Digit 8 ++ map Lit (utf8 "_")
  ++ repeat Digit 6 ++ map Lit (utf8 ".txt").

(** A reading of the clock in a year of four digits.  [tm_sec] reaches 61
    on leap seconds. *)
Definition valid_struct_time (t : struct_time) : bool :=
  ((1000 <=? tm_year t) && (tm_year t <=? 9999)
   && (1 <=? tm_mon t) && (tm_mon t <=? 12)
   && (1 <=? tm_mday t) && (tm_mday t <=? 31)
   && (tm_hour t <=? 23) && (tm_min t <=? 59) && (tm_sec t <=? 61))%N.

Definition is_download_button (e : event) : bool :=
  match e with st_download_button _ _ _ _ _ _ => true | _ => false end.

(* ===================================================================== *)
(** ** Vocabulary for whole runs of the script *)
(* ===================================================================== *)

(** What the [try] statement of [configure_gemini] amounts to after
    [genai.configure] and the listing call: the selection, or the handler
    of a listing failure. *)
Definition after_listing (w : World) : run (option GenerativeModel) :=
  match list_models w with
  | Failure e =>
    ([st_error (utf8 "😥 Failed to configure Gemini: " ++ e)], Stopped)
  | Success models =>
    if str_in FREE_GEMINI_MODEL (available_models_of models) then
      ([st_sidebar_success
          (utf8 "✅ Using model: `" ++ FREE_GEMINI_MODEL ++ utf8 "`")],
       Returned (Some {| model_name := FREE_GEMINI_MODEL |}))
    else if str_in fallback_model (available_models_of models) then
      ([st_sidebar_warning
          (utf8 "⚠️ `" ++ FREE_GEMINI_MODEL
           ++ utf8 "` not found. Falling back to `" ++ fallback_model
           ++ utf8 "`.")],
       Returned (Some {| model_name := fallback_model |}))
    else
      ([st_error
          (utf8 "❌ No valid Gemini models found for content generation.");
        st_info (utf8 "Available models supporting 'generateContent':");
        st_json (available_models_of models)],
       Stopped)
  end.

(** A call of the provider's listing operation. *)
Definition is_listing_call (e : event) : bool :=
  match e with genai_list_models => true | _ => false end.

(** A call into Streamlit: what the user can see. *)
Definition is_streamlit_call (e : event) : bool :=
  match e with
  | genai_configure _ | genai_list_models
  | genai_generate_content _ _ _ _ => false
  | _ => true
  end.


(** A deployment whose secrets hold the given value for the credential and
    whose environment holds the given variables. *)
Definition world_with_sources (secret : option str) (env : list (str * str))
  : World :=
  {| hasattr_st_secrets := true;
     st_secrets :=
       match secret with
       | Some v => Success [(GEMINI_API_KEY, v)]
       | None => Failure (utf8 "No secrets files found.")
       end;
     os_environ := env;
     list_models :=
       Success [ {| ModelInfo.name := FREE_GEMINI_MODEL;
                    ModelInfo.supported_generation_methods :=
                      [utf8 "generateContent"] |} ];
     generate_content := fun _ _ _ _ => Failure [];
     user_story_prompt := utf8 "a cat";
     generate_button := true;
     localtime := noon |}.

(* ===================================================================== *)
(** ** General lemmas *)
(* ===================================================================== *)

Arguments utf8 : simpl never.

(** Goes through the members of a literal list of events. *)
Ltac each_event H :=
  repeat (destruct H as [<- | H]; [reflexivity |]); contradiction.

(** The decoder and the string operations on small inputs. *)
Example utf8_ascii : utf8 "Hi" = [72; 105]%N.
Proof. reflexivity. Qed.

Example utf8_en_dash : utf8 "–" = [0x2013]%N.
Proof. reflexivity. Qed.

Example utf8_emoji : utf8 "📖" = [0x1F4D6]%N.
Proof. reflexivity. Qed.

Example strip_example : strip (utf8 "  a b
 ") = utf8 "a b".
Proof. reflexivity. Qed.

Example decimal_example : decimal 2026 = utf8 "2026" /\ pad2 7 = utf8 "07".
Proof. split; reflexivity. Qed.

Lemma bind_ret_l (A B : Type) (a : A) (k : A -> run B) : bind (ret a) k = k a.
Proof. unfold bind, ret. destruct (k a) as [t o]. reflexivity. Qed.

Lemma bind_ret_r (A : Type) (m : run A) : bind m ret = m.
Proof.
  destruct m as [t [a | e | ]]; simpl; try reflexivity.
  now rewrite app_nil_r.
Qed.

Lemma bind_assoc (A B C : Type) (m : run A) (k : A -> run B) (h : B -> run C) :
  bind (bind m k) h = bind m (fun a => bind (k a) h).
Proof.
  destruct m as [t [a | e | ]]; simpl; try reflexivity.
  destruct (k a) as [t1 [b | e | ]]; simpl; try reflexivity.
  destruct (h b) as [t2 o]. now rewrite app_assoc.
Qed.

(** [except Exception] lets [st.stop()] through. *)
Lemma try_except_stopped (A : Type) (t : list event) (h : str -> run A) :
  try_except (t, Stopped) h = (t, Stopped).
Proof. reflexivity. Qed.

Lemma str_eqb_refl (a : str) : str_eqb a a = true.
Proof. induction a as [| x a IH]; simpl; [easy | now rewrite N.eqb_refl]. Qed.

Lemma str_eqb_eq (a b : str) : str_eqb a b = true <-> a = b.
Proof.
  split; [| intros ->; apply str_eqb_refl].
  revert b; induction a as [| x a IH]; intros [| y b]; simpl; try easy.
  intros H. apply andb_true_iff in H as [Hx Hab].
  apply N.eqb_eq in Hx. apply IH in Hab. congruence.
Qed.

Lemma str_in_In (x : str) (l : list str) : str_in x l = true <-> In x l.
Proof.
  unfold str_in. rewrite existsb_exists. split.
  - intros (y & Hin & Heq). apply str_eqb_eq in Heq. now subst.
  - intros Hin. exists x. split; [easy | apply str_eqb_refl].
Qed.

Lemma str_join_empty (items : list str) : str_join [] items = List.concat items.
Proof.
  induction items as [| x [| y rest] IH]; simpl in *.
  - reflexivity.
  - now rewrite app_nil_r.
  - now rewrite IH.
Qed.

Lemma part_texts_carried (parts : list Part.t) :
  part_texts parts = carried_texts parts.
Proof.
  induction parts as [| p parts IH]; simpl; [reflexivity |].
  destruct (Part.text p); simpl; now rewrite IH.
Qed.

Lemma carried_texts_none (parts : list Part.t) :
  (forall p, In p parts -> Part.text p = None) -> carried_texts parts = [].
Proof.
  induction parts as [| p parts IH]; intros H; simpl; [reflexivity |].
  rewrite (H p (or_introl eq_refl)). simpl. apply IH.
  intros q Hq. apply H. now right.
Qed.

(** The extraction step in terms of the specification's vocabulary. *)
Lemma story_text_of_parts (r : Response.t) (parts : list Part.t) :
  Response.parts r = Some parts -> parts <> [] ->
  story_text_of r = Some (List.concat (carried_texts parts)).
Proof.
  intros Hp Hne. unfold story_text_of. rewrite Hp.
  destruct parts as [| p ps]; [congruence |].
  now rewrite str_join_empty, part_texts_carried.
Qed.

Lemma story_text_of_no_parts (r : Response.t) :
  no_parts r ->
  story_text_of r =
  match Response.text r with Some (c :: t) => Some (c :: t) | _ => None end.
Proof.
  unfold story_text_of.
  intros [H | H]; rewrite H; destruct (Response.text r) as [[| c t] |];
    reflexivity.
Qed.

(** What [generate_sgu_story] does once the provider has answered. *)
Lemma generate_sgu_story_success (w : World) (u : str) (m : GenerativeModel)
      (r : Response.t) :
  generate_content w m (full_prompt u) generation_config safety_settings
  = Success r ->
  generate_sgu_story w u (Some m) =
  ([genai_generate_content m (full_prompt u) generation_config
                           safety_settings],
   Returned (story_text_of r, Response.prompt_feedback r)).
Proof.
  intros H. unfold generate_sgu_story. rewrite H. reflexivity.
Qed.

(** What it does when the call raises. *)
Lemma generate_sgu_story_failure (w : World) (u : str) (m : GenerativeModel)
      (e : str) :
  generate_content w m (full_prompt u) generation_config safety_settings
  = Failure e ->
  generate_sgu_story w u (Some m) =
  ([genai_generate_content m (full_prompt u) generation_config
                           safety_settings;
    st_error (utf8 "❌ API Error during generation: " ++ e);
    st_info (utf8 "Check network, API key, or prompt complexity.")],
   Returned (None, None)).
Proof.
  intros H. unfold generate_sgu_story. rewrite H. reflexivity.
Qed.

(** The display chain computes the classification of the specification. *)
Lemma display_result_classify (w : World) (story_text : option str)
      (feedback : option PromptFeedback.t) :
  display_result w story_text feedback
  = (shown w (classify story_text feedback), Returned tt).
Proof.
  destruct story_text as [[| c s] |];
    destruct feedback as [[[reason |]] |]; reflexivity.
Qed.

(** Distinct outcomes show distinct things. *)
Lemma shown_inj (w : World) (o1 o2 : outcome_class) :
  shown w o1 = shown w o2 -> o1 = o2.
Proof.
  destruct o1 as [s1 | r1 | |], o2 as [s2 | r2 | |]; simpl; intros H;
    try discriminate; try reflexivity.
  - injection H as H _. now subst.
  - injection H as H. apply app_inv_tail in H. now subst.
Qed.

(* ===================================================================== *)
(** ** Response normalization and outcome classification *)
(* ===================================================================== *)

(** C1. Response normalization follows the three-step order.  Whenever the
    provider answers with a response [r], [generate_sgu_story] returns a text
    and the feedback of [r], where: if [r] exposes a non-empty sequence of
    parts, the text is the concatenation, in order, of the text of every part
    that carries text; else if [r] exposes a non-empty text field, the text is
    that field; else the text is absent.  In particular the parts
    "Hello " and "world" give "Hello world". *)
Theorem response_normalization_order :
  forall (w : World) (u : str) (m : GenerativeModel) (r : Response.t),
    generate_content w m (full_prompt u) generation_config safety_settings
    = Success r ->
    exists story_text : option str,
      result (generate_sgu_story w u (Some m))
      = Returned (story_text, Response.prompt_feedback r)
      /\ (forall parts, Response.parts r = Some parts -> parts <> [] ->
          story_text = Some (List.concat (carried_texts parts)))
      /\ (forall text, no_parts r -> Response.text r = Some text ->
          text <> [] -> story_text = Some text)
      /\ (no_parts r -> no_text r -> story_text = None)
      /\ (Response.parts r = Some hello_world_parts ->
          story_text = Some (utf8 "Hello world")).
Proof.
  intros w u m r Hcall. exists (story_text_of r).
  rewrite (generate_sgu_story_success _ _ _ Hcall).
  split; [reflexivity |].
  split; [intros parts; apply story_text_of_parts |].
  split.
  { intros text Hnp Ht Hne. rewrite (story_text_of_no_parts Hnp), Ht.
    destruct text; [congruence | reflexivity]. }
  split.
  { intros Hnp [Ht | Ht]; rewrite (story_text_of_no_parts Hnp), Ht;
      reflexivity. }
  intros Hp. unfold story_text_of. rewrite Hp. reflexivity.
Qed.

Lemma response_normalization_order_witness :
  exists story_text : option str,
    result (generate_sgu_story
              (world_answering
                 (utf8 "a walk to the library")
                 (Success {| Response.parts := Some hello_world_parts;
                             Response.text := Some (utf8 "ignored");
                             Response.prompt_feedback := None |}))
              (utf8 "a walk to the library") (Some a_model))
    = Returned (story_text, None)
    /\ story_text = Some (utf8 "Hello world").
Proof.
  destruct (@response_normalization_order
              (world_answering
                 (utf8 "a walk to the library")
                 (Success {| Response.parts := Some hello_world_parts;
                             Response.text := Some (utf8 "ignored");
                             Response.prompt_feedback := None |}))
              (utf8 "a walk to the library") a_model _ eq_refl)
    as (story_text & Hrun & _ & _ & _ & Hhello).
  exists story_text. split; [exact Hrun | apply Hhello; reflexivity].
Defined.

(** The second example of the specification: no parts, a direct text field. *)
Example direct_text_field_example :
  story_text_of {| Response.parts := None;
                   Response.text := Some (utf8 "Once upon a time");
                   Response.prompt_feedback := None |}
  = Some (utf8 "Once upon a time").
Proof. reflexivity. Qed.

(** C2. For every pair (text, feedback), the display chain of [main] selects
    exactly one of the four outcomes, in priority order: text present, the
    story is rendered and offered for download; text absent and feedback
    present with a block reason, the blocked message naming the reason;
    text absent and feedback absent, nothing; text absent and feedback
    present without a block reason, the generic message.  Present means
    truthy, as the code tests it. *)
Theorem outcome_classification_priority :
  forall (w : World) (story_text : option str)
         (feedback : option PromptFeedback.t),
    result (display_result w story_text feedback) = Returned tt
    /\ (exists! o : outcome_class,
           trace (display_result w story_text feedback) = shown w o)
    /\ (forall story, story_text = Some story -> story <> [] ->
        trace (display_result w story_text feedback)
        = shown w (RenderStory story))
    /\ (forall fb reason,
           opt_str_truthy story_text = false -> feedback = Some fb ->
           PromptFeedback.block_reason fb = Some reason ->
           trace (display_result w story_text feedback)
           = shown w (BlockedBySafety (BlockReason.name reason)))
    /\ (opt_str_truthy story_text = false -> feedback = None ->
        trace (display_result w story_text feedback)
        = shown w AlreadyReported)
    /\ (forall fb,
           opt_str_truthy story_text = false -> feedback = Some fb ->
           PromptFeedback.block_reason fb = None ->
           trace (display_result w story_text feedback)
           = shown w NoStoryGenerated).
Proof.
  intros w story_text feedback. rewrite display_result_classify. simpl.
  split; [reflexivity |]. split.
  { exists (classify story_text feedback). split; [reflexivity |].
    intros o. apply shown_inj. }
  split.
  { intros story -> Hne. destruct story; [congruence | reflexivity]. }
  split.
  { intros [br] reason Ht -> Hbr. simpl in Hbr. subst br.
    destruct story_text as [[| c s] |]; try discriminate; reflexivity. }
  split.
  { intros Ht ->.
    destruct story_text as [[| c s] |]; try discriminate; reflexivity. }
  intros [br] Ht -> Hbr. simpl in Hbr. subst br.
  destruct story_text as [[| c s] |]; try discriminate; reflexivity.
Qed.

Lemma outcome_classification_priority_witness :
  trace (display_result (world_answering [] (Failure [])) (Some [])
                        (Some {| PromptFeedback.block_reason := None |}))
  = shown (world_answering [] (Failure [])) NoStoryGenerated.
Proof.
  exact (proj2 (proj2 (proj2 (proj2 (proj2
           (@outcome_classification_priority
              (world_answering [] (Failure [])) (Some [])
              (Some {| PromptFeedback.block_reason := None |}))))))
           _ eq_refl eq_refl eq_refl).
Defined.

(** C3. A response with no parts, no text field and feedback carrying the
    block reason SAFETY is classified as blocked, and [main] shows exactly
    the reason string SAFETY. *)
Theorem safety_block_surfaces_reason :
  forall (w : World) (u : str) (m : GenerativeModel),
    generate_content w m (full_prompt u) generation_config safety_settings
    = Success safety_blocked_response ->
    classify (story_text_of safety_blocked_response)
             (Response.prompt_feedback safety_blocked_response)
    = BlockedBySafety (utf8 "SAFETY")
    /\ (' (story_text, feedback) <- generate_sgu_story w u (Some m) ;;
        display_result w story_text feedback)
       = ([ genai_generate_content m (full_prompt u) generation_config
                                   safety_settings;
            st_error
              (utf8 "🚫 Story generation was blocked due to safety settings.");
            st_info (utf8 "Reason: `SAFETY`");
            st_warning
              (utf8 "Please try rephrasing your prompt to be clearer and avoid sensitive topics.") ],
          Returned tt).
Proof.
  intros w u m Hcall. split; [reflexivity |].
  rewrite (generate_sgu_story_success _ _ _ Hcall). reflexivity.
Qed.

Lemma safety_block_surfaces_reason_witness :
  In (st_info (utf8 "Reason: `SAFETY`"))
     (trace (' (story_text, feedback) <-
               generate_sgu_story
                 (world_answering (utf8 "x") (Success safety_blocked_response))
                 (utf8 "x") (Some a_model) ;;
             display_result
               (world_answering (utf8 "x") (Success safety_blocked_response))
               story_text feedback)).
Proof.
  rewrite (proj2 (@safety_block_surfaces_reason
                    (world_answering (utf8 "x")
                                     (Success safety_blocked_response))
                    (utf8 "x") a_model eq_refl)).
  simpl. right. right. left. reflexivity.
Defined.

(** C10. When the response exposes a non-empty sequence of parts none of
    which carries text, extraction returns the empty string whatever the
    direct text field holds; the display chain then treats the empty string
    as it treats an absent text, and shows nothing that renders a story or
    offers a download. *)
Theorem textless_parts_give_empty_story :
  forall (w : World) (u : str) (m : GenerativeModel) (r : Response.t)
         (parts : list Part.t),
    generate_content w m (full_prompt u) generation_config safety_settings
    = Success r ->
    Response.parts r = Some parts -> parts <> [] ->
    (forall p, In p parts -> Part.text p = None) ->
    result (generate_sgu_story w u (Some m))
    = Returned (Some [], Response.prompt_feedback r)
    /\ (forall feedback,
           display_result w (Some []) feedback
           = display_result w None feedback)
    /\ (forall feedback e,
           In e (trace (display_result w (Some []) feedback)) ->
           renders_story e = false).
Proof.
  intros w u m r parts Hcall Hp Hne Hnone.
  rewrite (generate_sgu_story_success _ _ _ Hcall).
  rewrite (story_text_of_parts _ Hp Hne), (carried_texts_none _ Hnone).
  split; [reflexivity |]. split.
  - intros feedback. now rewrite !display_result_classify.
  - intros feedback e. rewrite display_result_classify.
    destruct feedback as [[[reason |]] |]; simpl; intros H; each_event H.
Qed.

Lemma textless_parts_give_empty_story_witness :
  result (generate_sgu_story
            (world_answering
               (utf8 "x")
               (Success {| Response.parts := Some [ {| Part.text := None |} ];
                           Response.text := Some (utf8 "Once upon a time");
                           Response.prompt_feedback := None |}))
            (utf8 "x") (Some a_model))
  = Returned (Some [], None).
Proof.
  refine (proj1 (@textless_parts_give_empty_story
                   (world_answering
                      (utf8 "x")
                      (Success {| Response.parts :=
                                    Some [ {| Part.text := None |} ];
                                  Response.text :=
                                    Some (utf8 "Once upon a time");
                                  Response.prompt_feedback := None |}))
                   (utf8 "x") a_model _ _ eq_refl eq_refl _ _)).
  - discriminate.
  - intros p [<- | []]. reflexivity.
Defined.

(* ===================================================================== *)
(** ** Prompt assembly *)
(* ===================================================================== *)

(** C4. Prompt assembly is a pure concatenation: for every user input (in
    particular every trimmed input of at most 500 characters) the prompt sent
    to the provider is the fixed template with the full campus context and
    the input embedded verbatim.  Nothing is escaped, added or removed: the
    prompt is longer than the empty-input prompt by exactly the length of the
    input, and the input can be read back from it. *)
Theorem prompt_embeds_input_and_context_verbatim :
  forall (w : World) (m : GenerativeModel) (user_prompt : str),
    full_prompt user_prompt
    = prompt_head ++ SGU_CONTEXT ++ prompt_idea ++ user_prompt
      ++ prompt_instructions
    /\ List.length (full_prompt user_prompt)
       = (List.length (full_prompt []) + List.length user_prompt)%nat
    /\ (forall other, full_prompt other = full_prompt user_prompt ->
        other = user_prompt)
    /\ hd_error (trace (generate_sgu_story w user_prompt (Some m)))
       = Some (genai_generate_content
                 m
                 (prompt_head ++ SGU_CONTEXT ++ prompt_idea ++ user_prompt
                  ++ prompt_instructions)
                 generation_config safety_settings).
Proof.
  intros w m u. split; [reflexivity |]. split.
  { unfold full_prompt. rewrite !length_app. simpl. lia. }
  split.
  { unfold full_prompt. intros other H.
    do 3 apply app_inv_head in H. now apply app_inv_tail in H. }
  unfold generate_sgu_story.
  destruct (generate_content w m (full_prompt u) generation_config
                             safety_settings); reflexivity.
Qed.

Example full_prompt_example :
  full_prompt (utf8 "A robot in the library")
  = prompt_head ++ SGU_CONTEXT
    ++ utf8 "

**User's Story Idea:**
A robot in the library" ++ prompt_instructions.
Proof. vm_compute. reflexivity. Qed.

(* ===================================================================== *)
(** ** Credential resolution *)
(* ===================================================================== *)

Lemma no_secret_credential_iff (w : World) :
  no_secret_credential w <-> secret_credential w = None.
Proof.
  unfold no_secret_credential, secret_credential. split.
  - intros [H | [(e & H) | (s & H & Hs)]]; rewrite H;
      destruct (hasattr_st_secrets w); easy.
  - destruct (hasattr_st_secrets w); [| now left].
    destruct (st_secrets w) as [s | e] eqn:E; intros H.
    + right. right. now exists s.
    + right. left. now exists e.
Qed.

Lemma get_api_key_from_secrets_eq (w : World) :
  get_api_key_from_secrets w =
  match secret_credential w with
  | Some v =>
    ([st_sidebar_info (utf8 "🔑 Using API Key from Streamlit secrets.")],
     Returned (Some v))
  | None => ([], Returned None)
  end.
Proof.
  unfold get_api_key_from_secrets, secret_credential.
  destruct (hasattr_st_secrets w); [| reflexivity].
  destruct (st_secrets w) as [s | e]; [| reflexivity]. simpl.
  destruct (lookup GEMINI_API_KEY s); reflexivity.
Qed.

(** An environment variable set to the empty string counts as not set. *)
Lemma get_api_key_empty_env (w : World) :
  secret_credential w = None -> os_getenv w GEMINI_API_KEY = Some [] ->
  get_api_key w = ([st_error api_key_not_found], Stopped).
Proof.
  intros Hs He. unfold get_api_key.
  rewrite get_api_key_from_secrets_eq, Hs. simpl. rewrite He. reflexivity.
Qed.

(** C6. Credential resolution tries the secret facility first and returns
    its credential without looking at the environment; when the credential
    is absent there or the facility is unavailable, it returns the value of
    the environment variable GEMINI_API_KEY; when that is absent too, it
    shows the explanatory message and stops the script.  The credential
    returned comes from exactly one of the two sources, in that priority. *)
Theorem credential_resolution_priority :
  forall w : World,
    (forall v, secret_credential w = Some v ->
       get_api_key w
       = ([st_sidebar_info (utf8 "🔑 Using API Key from Streamlit secrets.")],
          Returned v)
       /\ forall w', hasattr_st_secrets w' = hasattr_st_secrets w ->
                     st_secrets w' = st_secrets w ->
                     get_api_key w' = get_api_key w)
    /\ (forall k, no_secret_credential w ->
          os_getenv w GEMINI_API_KEY = Some k -> k <> [] ->
          get_api_key w
          = ([st_sidebar_info
                (utf8 "🔑 Using API Key from local environment variable.")],
             Returned k))
    /\ (no_secret_credential w -> os_getenv w GEMINI_API_KEY = None ->
        get_api_key w = ([st_error api_key_not_found], Stopped)).
Proof.
  intros w. split; [| split].
  - intros v Hv.
    assert (Hw : forall w0, secret_credential w0 = Some v ->
              get_api_key w0
              = ([st_sidebar_info
                    (utf8 "🔑 Using API Key from Streamlit secrets.")],
                 Returned v)).
    { intros w0 H0. unfold get_api_key.
      rewrite get_api_key_from_secrets_eq, H0. reflexivity. }
    split; [now apply Hw |].
    intros w' Hh Hs. rewrite (Hw w Hv). apply Hw.
    unfold secret_credential in *. now rewrite Hh, Hs.
  - intros k Hno Hk Hne. apply no_secret_credential_iff in Hno.
    unfold get_api_key. rewrite get_api_key_from_secrets_eq, Hno. simpl.
    rewrite Hk. destruct k; [congruence | reflexivity].
  - intros Hno Hk. apply no_secret_credential_iff in Hno.
    unfold get_api_key. rewrite get_api_key_from_secrets_eq, Hno. simpl.
    rewrite Hk. reflexivity.
Qed.

Lemma credential_resolution_priority_witness :
  get_api_key (world_answering [] (Failure []))
  = ([st_sidebar_info
        (utf8 "🔑 Using API Key from local environment variable.")],
     Returned (utf8 "k3y")).
Proof.
  apply (proj1 (proj2 (@credential_resolution_priority
                         (world_answering [] (Failure []))))).
  - right. left. eexists. reflexivity.
  - reflexivity.
  - discriminate.
Defined.

(** The secret wins over the environment when both hold a credential. *)
Example secret_has_priority :
  result (get_api_key
            {| hasattr_st_secrets := true;
               st_secrets := Success [(GEMINI_API_KEY, utf8 "from-secrets")];
               os_environ := [(GEMINI_API_KEY, utf8 "from-env")];
               list_models := Failure [];
               generate_content := fun _ _ _ _ => Failure [];
               user_story_prompt := [];
               generate_button := false;
               localtime := noon |})
  = Returned (utf8 "from-secrets").
Proof. reflexivity. Qed.

(* ===================================================================== *)
(** ** Model selection *)
(* ===================================================================== *)

(** The names on offer are those of the listed models that support
    content generation. *)
Lemma available_models_of_In (models : list ModelInfo.t) (n : str) :
  In n (available_models_of models) <->
  exists m, In m models /\ ModelInfo.name m = n
            /\ In (utf8 "generateContent")
                  (ModelInfo.supported_generation_methods m).
Proof.
  unfold available_models_of. rewrite in_map_iff. split.
  - intros (m & Hn & Hm). apply filter_In in Hm as [Hm Hs].
    apply str_in_In in Hs. now exists m.
  - intros (m & Hm & Hn & Hs). exists m. split; [easy |].
    apply filter_In. split; [easy | now apply str_in_In].
Qed.

Lemma str_in_false (x : str) (l : list str) : str_in x l = false <-> ~ In x l.
Proof.
  rewrite <- str_in_In. destruct (str_in x l); split; congruence.
Qed.

Lemma configure_gemini_with_key (w : World) (t0 : list event) (k : str) :
  get_api_key w = (t0, Returned k) -> k <> [] ->
  configure_gemini w =
  (t0 ++ trace (try_except (select_model w k)
                  (fun e =>
                     emit (st_error
                             (utf8 "😥 Failed to configure Gemini: " ++ e)) ;;
                     st_stop)),
   result (try_except (select_model w k)
             (fun e =>
                emit (st_error
                        (utf8 "😥 Failed to configure Gemini: " ++ e)) ;;
                st_stop))).
Proof.
  intros Hk Hne. unfold configure_gemini. rewrite Hk.
  destruct k as [| c k]; [congruence |]. simpl.
  match goal with |- (let (_, _) := ?x in _) = _ => destruct x end.
  reflexivity.
Qed.

(** C5. Once a credential is resolved, for every list of models on offer
    for content generation: the primary model is selected when its name is
    on offer; else the fallback is selected when its name is on offer; else
    the script stops after an error message and the list of the models on
    offer.  A failure while listing the models also stops the script after
    an error message carrying the failure. *)
Theorem model_selection_priority :
  forall (w : World) (t0 : list event) (api_key : str),
    get_api_key w = (t0, Returned api_key) -> api_key <> [] ->
    (forall models, list_models w = Success models ->
       (In FREE_GEMINI_MODEL (available_models_of models) ->
        result (configure_gemini w)
        = Returned (Some {| model_name := FREE_GEMINI_MODEL |}))
       /\ (~ In FREE_GEMINI_MODEL (available_models_of models) ->
           In fallback_model (available_models_of models) ->
           result (configure_gemini w)
           = Returned (Some {| model_name := fallback_model |}))
       /\ (~ In FREE_GEMINI_MODEL (available_models_of models) ->
           ~ In fallback_model (available_models_of models) ->
           configure_gemini w
           = (t0 ++ [ genai_configure api_key; genai_list_models;
                      st_error
                        (utf8 "❌ No valid Gemini models found for content generation.");
                      st_info
                        (utf8 "Available models supporting 'generateContent':");
                      st_json (available_models_of models) ],
              Stopped)))
    /\ (forall e, list_models w = Failure e ->
          configure_gemini w
          = (t0 ++ [ genai_configure api_key; genai_list_models;
                     st_error (utf8 "😥 Failed to configure Gemini: " ++ e) ],
             Stopped)).
Proof.
  intros w t0 k Hk Hne. rewrite (configure_gemini_with_key _ Hk Hne).
  unfold select_model. split.
  - intros models ->. simpl. split; [| split].
    + intros H1. apply str_in_In in H1. rewrite H1. reflexivity.
    + intros H1 H2. apply str_in_false in H1. apply str_in_In in H2.
      rewrite H1, H2. reflexivity.
    + intros H1 H2. apply str_in_false in H1, H2.
      rewrite H1, H2. reflexivity.
  - intros e ->. reflexivity.
Qed.

Lemma model_selection_priority_witness :
  result (configure_gemini
            (world_offering [utf8 "models/gemini-1.0"; fallback_model]))
  = Returned (Some {| model_name := fallback_model |}).
Proof.
  refine (proj1 (proj2 (proj1
            (@model_selection_priority
               (world_offering [utf8 "models/gemini-1.0"; fallback_model])
               _ (utf8 "k3y") eq_refl _) _ eq_refl)) _ _).
  - discriminate.
  - vm_compute. intros [H | [H | []]]; discriminate.
  - vm_compute. right. left. reflexivity.
Defined.

Example neither_model_stops_with_list :
  configure_gemini (world_offering [utf8 "models/a"; utf8 "models/b"])
  = ([ st_sidebar_info
         (utf8 "🔑 Using API Key from local environment variable.");
       genai_configure (utf8 "k3y"); genai_list_models;
       st_error
         (utf8 "❌ No valid Gemini models found for content generation.");
       st_info (utf8 "Available models supporting 'generateContent':");
       st_json [utf8 "models/a"; utf8 "models/b"] ],
     Stopped).
Proof. reflexivity. Qed.

(* ===================================================================== *)
(** ** The page and the click *)
(* ===================================================================== *)

Lemma main_unfold (w : World) (model : option GenerativeModel) :
  main w model =
  if generate_button w && str_truthy (strip (user_story_prompt w))
  then (page w ++ trace (on_click w model), result (on_click w model))
  else (page w, Returned tt).
Proof.
  unfold main, on_click, page.
  destruct (generate_button w && str_truthy (strip (user_story_prompt w)));
    [| reflexivity].
  simpl.
  destruct (generate_sgu_story w (strip (user_story_prompt w)) model)
    as [t [[story_text feedback] | e |]]; simpl; try reflexivity.
  destruct (display_result w story_text feedback) as [t' o]. reflexivity.
Qed.

(** [generate_sgu_story] always returns: no exception and no stop leave it. *)
Lemma generate_sgu_story_cases (w : World) (u : str)
      (model : option GenerativeModel) :
  (model = None
   /\ generate_sgu_story w u model
      = ([st_error (utf8 "Model not initialized.")], Returned (None, None)))
  \/ (exists m r,
        model = Some m
        /\ generate_content w m (full_prompt u) generation_config
                            safety_settings = Success r
        /\ generate_sgu_story w u model
           = ([genai_generate_content m (full_prompt u) generation_config
                                      safety_settings],
              Returned (story_text_of r, Response.prompt_feedback r)))
  \/ (exists m e,
        model = Some m
        /\ generate_content w m (full_prompt u) generation_config
                            safety_settings = Failure e
        /\ generate_sgu_story w u model
           = ([genai_generate_content m (full_prompt u) generation_config
                                      safety_settings;
               st_error (utf8 "❌ API Error during generation: " ++ e);
               st_info (utf8 "Check network, API key, or prompt complexity.")],
              Returned (None, None))).
Proof.
  destruct model as [m |]; [| now left]. right.
  destruct (generate_content w m (full_prompt u) generation_config
                             safety_settings) as [r | e] eqn:E.
  - left. exists m, r. repeat split; trivial.
    now apply generate_sgu_story_success.
  - right. exists m, e. repeat split; trivial.
    now apply generate_sgu_story_failure.
Qed.

Lemma shown_no_generation_call (w : World) (o : outcome_class) (e : event) :
  In e (shown w o) -> is_generation_call e = false.
Proof.
  destruct o; simpl; intros H; each_event H.
Qed.

Lemma page_no_generation_call (w : World) (e : event) :
  In e (page w) -> is_generation_call e = false.
Proof.
  unfold page. simpl. intros H. each_event H.
Qed.

(** The click always runs to its end, and calls the provider at most with
    the prompt built from the stripped input. *)
Lemma on_click_returns (w : World) (model : option GenerativeModel) :
  result (on_click w model) = Returned tt.
Proof.
  unfold on_click.
  destruct (generate_sgu_story_cases w (strip (user_story_prompt w)) model)
    as [(_ & ->) | [(m & r & _ & _ & ->) | (m & e & _ & _ & ->)]];
    simpl; rewrite ?display_result_classify; reflexivity.
Qed.

Lemma on_click_generation_call (w : World) (model : option GenerativeModel)
      (e : event) :
  In e (trace (on_click w model)) -> is_generation_call e = true ->
  exists m, model = Some m
            /\ e = genai_generate_content
                     m (full_prompt (strip (user_story_prompt w)))
                     generation_config safety_settings.
Proof.
  unfold on_click.
  destruct (generate_sgu_story_cases w (strip (user_story_prompt w)) model)
    as [(_ & ->) | [(m & r & -> & _ & ->) | (m & e' & -> & _ & ->)]];
    simpl; rewrite ?display_result_classify; simpl; intros Hin Hcall.
  - destruct Hin as [<- | [<- | []]]; discriminate.
  - destruct Hin as [<- | [<- | Hin]]; try discriminate.
    + now exists m.
    + apply shown_no_generation_call in Hin. congruence.
  - destruct Hin as [<- | [<- | [<- | [<- | []]]]]; try discriminate.
    now exists m.
Qed.

(* ===================================================================== *)
(** ** Stripping *)
(* ===================================================================== *)

Lemma lstrip_nil_iff (s : str) : lstrip s = [] <-> forallb isspace s = true.
Proof.
  induction s as [| c s IH]; simpl; [easy |].
  destruct (isspace c); simpl; [exact IH | easy].
Qed.

Lemma lstrip_head (s : str) (c : char) (t : str) :
  lstrip s = c :: t -> isspace c = false.
Proof.
  induction s as [| x s IH]; simpl; [discriminate |].
  destruct (isspace x) eqn:E; [exact IH | congruence].
Qed.

Lemma forallb_rev (A : Type) (f : A -> bool) (l : list A) :
  forallb f (rev l) = forallb f l.
Proof.
  induction l as [| x l IH]; simpl; [reflexivity |].
  rewrite forallb_app, IH. simpl. rewrite andb_true_r. apply andb_comm.
Qed.

Lemma rev_nil_inv (A : Type) (l : list A) : rev l = [] -> l = [].
Proof.
  intros H. rewrite <- (rev_involutive l), H. reflexivity.
Qed.

(** The stripped input is empty exactly when the input is empty or holds
    whitespace only. *)
Lemma strip_nil_iff (s : str) : strip s = [] <-> forallb isspace s = true.
Proof.
  unfold strip, rstrip. split.
  - intros H. apply rev_nil_inv, lstrip_nil_iff in H.
    rewrite forallb_rev in H.
    destruct (lstrip s) as [| c t] eqn:E; [now apply lstrip_nil_iff |].
    apply lstrip_head in E. simpl in H. rewrite E in H. discriminate.
  - intros H. apply lstrip_nil_iff in H. rewrite H. reflexivity.
Qed.

Lemma lstrip_length (s : str) :
  (List.length (lstrip s) <= List.length s)%nat.
Proof.
  induction s as [| c s IH]; simpl; [lia |].
  destruct (isspace c); simpl; lia.
Qed.

(** Stripping never lengthens: the argument of [generate_sgu_story] is within
    the 500 characters of the text area whenever the typed text is. *)
Lemma strip_length (s : str) :
  (List.length (strip s) <= List.length s)%nat.
Proof.
  unfold strip, rstrip. rewrite length_rev.
  etransitivity; [apply lstrip_length |]. rewrite length_rev.
  apply lstrip_length.
Qed.

(* ===================================================================== *)
(** ** Failures of the generation call *)
(* ===================================================================== *)

(** C7. Every exception raised by the generation call is caught: it is
    reported with its message, and [generate_sgu_story] returns absent text
    and absent feedback, for which [main] shows nothing more.  A safety block
    returns absent text with a present feedback carrying a block reason, a
    different result.  After the failure the script goes on to its end (the
    footer is drawn) instead of stopping. *)
Theorem generation_failure_is_caught :
  forall (w : World) (u : str) (m : GenerativeModel) (e : str),
    generate_content w m (full_prompt u) generation_config safety_settings
    = Failure e ->
    generate_sgu_story w u (Some m)
    = ([ genai_generate_content m (full_prompt u) generation_config
                                safety_settings;
         st_error (utf8 "❌ API Error during generation: " ++ e);
         st_info (utf8 "Check network, API key, or prompt complexity.") ],
       Returned (None, None))
    /\ display_result w None None = ([], Returned tt)
    /\ (forall w' fb reason,
           generate_content w' m (full_prompt u) generation_config
                            safety_settings
           = Success {| Response.parts := None;
                        Response.text := None;
                        Response.prompt_feedback := Some fb |} ->
           PromptFeedback.block_reason fb = Some reason ->
           result (generate_sgu_story w' u (Some m))
           = Returned (None, Some fb)
           /\ result (generate_sgu_story w' u (Some m))
              <> result (generate_sgu_story w u (Some m)))
    /\ (forall t0,
           configure_gemini w = (t0, Returned (Some m)) ->
           generate_button w = true ->
           strip (user_story_prompt w) = u -> u <> [] ->
           script w
           = (st_set_page_config (utf8 "SGU Story Weaver") (utf8 "📖")
                                 (utf8 "centered")
              :: t0 ++ page w
              ++ [ st_spinner
                     (utf8 "✍️ Gemini is crafting your SGU story... Please wait.");
                   genai_generate_content m (full_prompt u) generation_config
                                          safety_settings;
                   st_error (utf8 "❌ API Error during generation: " ++ e);
                   st_info
                     (utf8 "Check network, API key, or prompt complexity.") ]
              ++ trace display_footer,
              Returned tt)).
Proof.
  intros w u m e Hfail.
  pose proof (generate_sgu_story_failure _ _ _ Hfail) as Hgen.
  split; [exact Hgen |]. split; [reflexivity |]. split.
  - intros w' fb reason Hblock _.
    rewrite (generate_sgu_story_success _ _ _ Hblock), Hgen. simpl.
    split; [reflexivity | discriminate].
  - intros t0 Hconf Hclick Hstrip Hne.
    unfold script. rewrite Hconf. simpl.
    rewrite main_unfold, Hclick, Hstrip.
    destruct u as [| c u]; [congruence |]. simpl.
    unfold on_click. rewrite Hstrip, Hgen. simpl.
    reflexivity.
Qed.

Lemma generation_failure_is_caught_witness :
  generate_sgu_story
    (world_answering (utf8 "a cat") (Failure (utf8 "503 unavailable")))
    (utf8 "a cat") (Some a_model)
  = ([ genai_generate_content a_model (full_prompt (utf8 "a cat"))
                              generation_config safety_settings;
       st_error (utf8 "❌ API Error during generation: 503 unavailable");
       st_info (utf8 "Check network, API key, or prompt complexity.") ],
     Returned (None, None))
  /\ result (script (world_answering (utf8 " a cat ")
                                     (Failure (utf8 "503 unavailable"))))
     = Returned tt.
Proof.
  split.
  - exact (proj1 (@generation_failure_is_caught
                    (world_answering (utf8 "a cat")
                                     (Failure (utf8 "503 unavailable")))
                    (utf8 "a cat") a_model (utf8 "503 unavailable") eq_refl)).
  - rewrite (proj2 (proj2 (proj2
               (@generation_failure_is_caught
                  (world_answering (utf8 " a cat ")
                                   (Failure (utf8 "503 unavailable")))
                  (utf8 "a cat") a_model (utf8 "503 unavailable") eq_refl)))
               _ eq_refl eq_refl eq_refl ltac:(discriminate)).
    reflexivity.
Defined.

(* ===================================================================== *)
(** ** Blank input *)
(* ===================================================================== *)

Lemma on_click_no_button (w : World) (model : option GenerativeModel)
      (e : event) :
  In e (trace (on_click w model)) -> is_button e = false.
Proof.
  unfold on_click.
  destruct (generate_sgu_story_cases w (strip (user_story_prompt w)) model)
    as [(_ & ->) | [(m & r & -> & _ & ->) | (m & e' & -> & _ & ->)]];
    simpl; rewrite ?display_result_classify; simpl; intros Hin.
  - destruct Hin as [<- | [<- | []]]; reflexivity.
  - destruct Hin as [<- | [<- | Hin]]; try reflexivity.
    destruct (classify (story_text_of r) (Response.prompt_feedback r));
      simpl in Hin; each_event Hin.
  - destruct Hin as [<- | [<- | [<- | [<- | []]]]]; reflexivity.
Qed.

(** C9. The button is drawn disabled exactly when the stripped input is
    empty, so for every empty or whitespace-only input it is disabled, and
    [main] then draws the page and nothing else.  [generate_sgu_story] runs
    only under a click with a non-empty stripped input, it is given the
    stripped input, and any call of the provider carries the prompt built
    from the stripped input. *)
Theorem blank_input_never_reaches_generation :
  forall (w : World) (model : option GenerativeModel),
    (forall label ty ucw disabled key,
        In (st_button label ty ucw disabled key) (trace (main w model)) ->
        disabled = negb (str_truthy (strip (user_story_prompt w))))
    /\ (forallb isspace (user_story_prompt w) = true ->
        In (st_button (utf8 "✨ Weave My Story!") (utf8 "primary") true true
                      (utf8 "generate_button"))
           (trace (main w model))
        /\ main w model = (page w, Returned tt))
    /\ (generate_button w = false -> main w model = (page w, Returned tt))
    /\ (generate_button w = true ->
        forallb isspace (user_story_prompt w) = false ->
        main w model
        = (page w
           ++ st_spinner
                (utf8 "✍️ Gemini is crafting your SGU story... Please wait.")
           :: trace (' (story_text, feedback) <-
                       generate_sgu_story w (strip (user_story_prompt w))
                                          model ;;
                     display_result w story_text feedback),
           Returned tt))
    /\ (forall e,
           In e (trace (main w model)) -> is_generation_call e = true ->
           generate_button w = true
           /\ strip (user_story_prompt w) <> []
           /\ exists m,
               model = Some m
               /\ e = genai_generate_content
                        m (full_prompt (strip (user_story_prompt w)))
                        generation_config safety_settings).
Proof.
  intros w model. rewrite main_unfold.
  assert (Hblank : forallb isspace (user_story_prompt w) = true ->
                   str_truthy (strip (user_story_prompt w)) = false).
  { intros H. apply strip_nil_iff in H. now rewrite H. }
  assert (Hfull : forallb isspace (user_story_prompt w) = false ->
                  str_truthy (strip (user_story_prompt w)) = true).
  { intros H. destruct (strip (user_story_prompt w)) eqn:E; [| reflexivity].
    apply strip_nil_iff in E. congruence. }
  split; [| split; [| split; [| split]]].
  - intros label ty ucw disabled key Hin.
    assert (Hpage : In (st_button label ty ucw disabled key) (page w)).
    { destruct (generate_button w
                && str_truthy (strip (user_story_prompt w)));
        [| exact Hin].
      cbn [trace fst] in Hin.
      apply in_app_or in Hin as [Hin | Hin]; [exact Hin |].
      apply on_click_no_button in Hin. discriminate. }
    unfold page in Hpage. simpl in Hpage.
    repeat (destruct Hpage as [Hpage | Hpage]; [try discriminate |]);
      [| contradiction].
    now injection Hpage as <- <- <- <- <-.
  - intros H. rewrite (Hblank H), andb_false_r. split; [| reflexivity].
    unfold page. simpl. rewrite (Hblank H). simpl. do 7 right. now left.
  - intros ->. reflexivity.
  - intros -> H. rewrite (Hfull H). simpl.
    rewrite on_click_returns. f_equal. f_equal. unfold on_click.
    destruct (generate_sgu_story w (strip (user_story_prompt w)) model)
      as [t [[story_text feedback] | e |]]; simpl; try reflexivity.
    destruct (display_result w story_text feedback). reflexivity.
  - intros e Hin Hcall.
    destruct (generate_button w);
      cbn [andb trace fst] in Hin;
      [| apply page_no_generation_call in Hin; congruence].
    destruct (strip (user_story_prompt w)) as [| c s] eqn:E;
      cbn [str_truthy trace fst] in Hin;
      [apply page_no_generation_call in Hin; congruence |].
    split; [reflexivity |]. split; [discriminate |].
    apply in_app_or in Hin as [Hin | Hin];
      [apply page_no_generation_call in Hin; congruence |].
    rewrite <- E. now apply on_click_generation_call.
Qed.

Lemma blank_input_never_reaches_generation_witness :
  main (world_answering (utf8 "
   ") (Failure [])) (Some a_model)
  = (page (world_answering (utf8 "
   ") (Failure [])), Returned tt).
Proof.
  exact (proj2 (proj1 (proj2
           (@blank_input_never_reaches_generation
              (world_answering (utf8 "
   ") (Failure [])) (Some a_model))) eq_refl)).
Defined.

(* ===================================================================== *)
(** ** The download *)
(* ===================================================================== *)

Example fullmatch_example :
  fullmatch sgu_story_pattern (utf8 "sgu_story_20250409_120007.txt") = true
  /\ fullmatch sgu_story_pattern (utf8 "sgu_story_2025049_120007.txt") = false
  /\ fullmatch sgu_story_pattern (utf8 "sgu_story_20250409_120007.txt~")
     = false.
Proof. repeat split; reflexivity. Qed.

Lemma fullmatch_app (p1 p2 : list pattern_item) (s1 s2 : str) :
  fullmatch p1 s1 = true -> fullmatch p2 s2 = true ->
  fullmatch (p1 ++ p2) (s1 ++ s2) = true.
Proof.
  revert s1. induction p1 as [| i p1 IH]; intros [| x s1]; simpl;
    try discriminate; try (destruct i; discriminate); [easy |].
  destruct i; intros H1 H2; apply andb_true_iff in H1 as [Hx H1];
    rewrite Hx; simpl; now apply IH.
Qed.

Lemma fullmatch_lit (s : str) : fullmatch (map Lit s) s = true.
Proof.
  induction s as [| c s IH]; simpl; [reflexivity |].
  now rewrite N.eqb_refl.
Qed.

(** A property checked on every number of a range holds on the range. *)
Lemma forall_range (P : N -> bool) (lo k : N) :
  forallb (fun i => P (lo + N.of_nat i)%N) (seq 0 (N.to_nat k)) = true ->
  forall n, (lo <= n)%N -> (n < lo + k)%N -> P n = true.
Proof.
  intros H n Hlo Hhi. rewrite forallb_forall in H.
  replace n with (lo + N.of_nat (N.to_nat (n - lo)))%N by lia.
  apply H. apply in_seq. lia.
Qed.

Lemma year_four_digits (y : N) :
  (1000 <= y)%N -> (y <= 9999)%N ->
  fullmatch (repeat Digit 4) (decimal y) = true.
Proof.
  intros Hlo Hhi.
  apply (@forall_range (fun n => fullmatch (repeat Digit 4) (decimal n))
                       1000 9000); [vm_compute; reflexivity | lia | lia].
Qed.

Lemma pad2_two_digits (n : N) :
  (n <= 99)%N -> fullmatch (repeat Digit 2) (pad2 n) = true.
Proof.
  intros H.
  apply (@forall_range (fun n => fullmatch (repeat Digit 2) (pad2 n)) 0 100);
    [vm_compute; reflexivity | lia | lia].
Qed.

(** The timestamp of a valid clock reading is eight digits, an underscore
    and six digits. *)
Lemma strftime_shape (t : struct_time) :
  valid_struct_time t = true ->
  fullmatch (repeat Digit 8 ++ map Lit (utf8 "_") ++ repeat Digit 6)
            (strftime_Ymd_HMS t) = true.
Proof.
  unfold valid_struct_time. intros H.
  repeat (apply andb_true_iff in H as [H ?]).
  repeat match goal with
         | H : (_ <=? _)%N = true |- _ => apply N.leb_le in H
         end.
  unfold strftime_Ymd_HMS.
  change (repeat Digit 8)
    with (repeat Digit 4 ++ repeat Digit 2 ++ repeat Digit 2).
  change (repeat Digit 6)
    with (repeat Digit 2 ++ repeat Digit 2 ++ repeat Digit 2).
  rewrite <- !app_assoc.
  repeat (apply fullmatch_app;
          [first [ apply year_four_digits; lia
                 | apply pad2_two_digits; lia
                 | apply fullmatch_lit ] |]).
  apply pad2_two_digits; lia.
Qed.

(** C8. For every text result that is present, and a clock in a year of
    four digits, [main] offers exactly one download; its content is the
    generated text itself, its file name matches
    sgu_story_\d{8}_\d{6}\.txt, and its media type is text/plain. *)
Theorem download_is_the_story :
  forall (w : World) (story : str) (feedback : option PromptFeedback.t),
    story <> [] ->
    valid_struct_time (localtime w) = true ->
    exists label file_name key,
      filter is_download_button
             (trace (display_result w (Some story) feedback))
      = [ st_download_button label story file_name (utf8 "text/plain")
                             true key ]
      /\ file_name
         = utf8 "sgu_story_" ++ strftime_Ymd_HMS (localtime w) ++ utf8 ".txt"
      /\ fullmatch sgu_story_pattern file_name = true.
Proof.
  intros w story feedback Hne Hclock.
  destruct story as [| c story]; [congruence |].
  eexists _, _, _. split; [reflexivity |]. split; [reflexivity |].
  unfold sgu_story_pattern.
  apply fullmatch_app; [apply fullmatch_lit |].
  rewrite !app_assoc. apply fullmatch_app; [| apply fullmatch_lit].
  rewrite <- !app_assoc. now apply strftime_shape.
Qed.

Lemma download_is_the_story_witness :
  exists label file_name key,
    filter is_download_button
           (trace (display_result (world_answering [] (Failure []))
                                  (Some (utf8 "X")) None))
    = [ st_download_button label (utf8 "X") file_name (utf8 "text/plain")
                           true key ]
    /\ file_name = utf8 "sgu_story_20250409_120007.txt"
    /\ fullmatch sgu_story_pattern file_name = true.
Proof.
  destruct (@download_is_the_story
              (world_answering [] (Failure [])) (utf8 "X") None
              ltac:(discriminate) eq_refl)
    as (label & file_name & key & Hd & Hn & Hm).
  exists label, file_name, key. repeat split; [exact Hd | | exact Hm].
  rewrite Hn. reflexivity.
Defined.

(* ===================================================================== *)
(** ** Whole runs: normal forms of the three steps *)
(* ===================================================================== *)

(** [get_api_key] by the two sources. *)
Lemma get_api_key_eq (w : World) :
  get_api_key w =
  match secret_credential w with
  | Some v =>
    ([st_sidebar_info (utf8 "🔑 Using API Key from Streamlit secrets.")],
     Returned v)
  | None =>
    match os_getenv w GEMINI_API_KEY with
    | Some (c :: k) =>
      ([st_sidebar_info
          (utf8 "🔑 Using API Key from local environment variable.")],
       Returned (c :: k))
    | _ => ([st_error api_key_not_found], Stopped)
    end
  end.
Proof.
  unfold get_api_key. rewrite get_api_key_from_secrets_eq.
  destruct (secret_credential w) as [v |]; [reflexivity |]. simpl.
  destruct (os_getenv w GEMINI_API_KEY) as [[| c k] |]; reflexivity.
Qed.

(** The [try] statement of [configure_gemini]. *)
Lemma try_select_model_eq (w : World) (k : str) :
  try_except (select_model w k)
    (fun e =>
       emit (st_error (utf8 "😥 Failed to configure Gemini: " ++ e)) ;;
       st_stop)
  = (genai_configure k :: genai_list_models :: trace (after_listing w),
     result (after_listing w)).
Proof.
  unfold select_model, after_listing.
  destruct (list_models w) as [models | e]; [| reflexivity]. simpl.
  destruct (str_in FREE_GEMINI_MODEL (available_models_of models));
    [reflexivity |].
  destruct (str_in fallback_model (available_models_of models)); reflexivity.
Qed.

(** [configure_gemini] by the outcome of [get_api_key]. *)
Lemma configure_gemini_eq (w : World) :
  configure_gemini w =
  match get_api_key w with
  | (t0, Returned []) => (t0, Returned None)
  | (t0, Returned (c :: k)) =>
    (t0 ++ genai_configure (c :: k) :: genai_list_models
        :: trace (after_listing w),
     result (after_listing w))
  | (t0, Raised e) => (t0, Raised e)
  | (t0, Stopped) => (t0, Stopped)
  end.
Proof.
  destruct (get_api_key w) as [t0 [[| c k] | e |]] eqn:E.
  - unfold configure_gemini. rewrite E. simpl. now rewrite app_nil_r.
  - rewrite (configure_gemini_with_key _ E) by discriminate.
    now rewrite try_select_model_eq.
  - unfold configure_gemini. now rewrite E.
  - unfold configure_gemini. now rewrite E.
Qed.



(** [main] always runs to its end. *)
Lemma main_returns (w : World) (model : option GenerativeModel) :
  result (main w model) = Returned tt.
Proof.
  rewrite main_unfold.
  destruct (generate_button w && str_truthy (strip (user_story_prompt w)));
    [apply on_click_returns | reflexivity].
Qed.

(** The script once a model is selected. *)
Lemma script_with_model (w : World) (t0 : list event) (m : GenerativeModel) :
  configure_gemini w = (t0, Returned (Some m)) ->
  script w
  = (st_set_page_config (utf8 "SGU Story Weaver") (utf8 "📖")
                        (utf8 "centered")
     :: t0 ++ trace (main w (Some m)) ++ trace display_footer,
     Returned tt).
Proof.
  intros H. unfold script. rewrite H. simpl.
  pose proof (main_returns w (Some m)) as Hm.
  destruct (main w (Some m)) as [t o]. simpl in Hm. subst o. reflexivity.
Qed.

(** The script when [configure_gemini] stops. *)
Lemma script_stopped (w : World) (t0 : list event) :
  configure_gemini w = (t0, Stopped) ->
  script w
  = (st_set_page_config (utf8 "SGU Story Weaver") (utf8 "📖")
                        (utf8 "centered") :: t0,
     Stopped).
Proof. intros H. unfold script. now rewrite H. Qed.

(* ===================================================================== *)
(** ** Missing and empty credentials *)
(* ===================================================================== *)

(** X1. A secret that holds the empty string is returned as it is: the
    environment is not tried and nothing stops.  [configure_gemini] then
    returns no model without contacting the provider, and the script draws
    only the warning that the application cannot start. *)
Theorem empty_secret_disables_app :
  forall w : World,
    secret_credential w = Some [] ->
    get_api_key w
    = ([st_sidebar_info (utf8 "🔑 Using API Key from Streamlit secrets.")],
       Returned [])
    /\ script w
       = ([ st_set_page_config (utf8 "SGU Story Weaver") (utf8 "📖")
                               (utf8 "centered");
            st_sidebar_info (utf8 "🔑 Using API Key from Streamlit secrets.");
            st_warning
              (utf8 "❌ Cannot start app — AI model failed to initialize.") ],
          Returned tt).
Proof.
  intros w H.
  assert (Hk : get_api_key w
               = ([st_sidebar_info
                     (utf8 "🔑 Using API Key from Streamlit secrets.")],
                  Returned [])).
  { rewrite get_api_key_eq, H. reflexivity. }
  split; [exact Hk |].
  unfold script. rewrite configure_gemini_eq, Hk. reflexivity.
Qed.

Lemma empty_secret_disables_app_witness :
  result (script (world_with_sources
                    (Some []) [(GEMINI_API_KEY, utf8 "from-env")]))
  = Returned tt
  /\ List.length
       (trace (script (world_with_sources
                         (Some []) [(GEMINI_API_KEY, utf8 "from-env")])))
     = 3%nat.
Proof.
  rewrite (proj2 (@empty_secret_disables_app
                    (world_with_sources
                       (Some []) [(GEMINI_API_KEY, utf8 "from-env")])
                    eq_refl)).
  split; reflexivity.
Defined.

(** X2. Without a credential (no secret, and the environment variable
    missing or empty) the script stops right after the explanatory message:
    the provider is never contacted and neither the page nor the footer is
    drawn. *)
Theorem missing_credential_stops_script :
  forall w : World,
    no_secret_credential w ->
    os_getenv w GEMINI_API_KEY = None \/ os_getenv w GEMINI_API_KEY = Some [] ->
    script w
    = ([ st_set_page_config (utf8 "SGU Story Weaver") (utf8 "📖")
                            (utf8 "centered");
         st_error api_key_not_found ],
       Stopped).
Proof.
  intros w Hs He. apply no_secret_credential_iff in Hs.
  apply script_stopped. rewrite configure_gemini_eq, get_api_key_eq, Hs.
  destruct He as [-> | ->]; reflexivity.
Qed.

Lemma missing_credential_stops_script_witness :
  script (world_with_sources None [(utf8 "HOME", utf8 "/root")])
  = ([ st_set_page_config (utf8 "SGU Story Weaver") (utf8 "📖")
                          (utf8 "centered");
       st_error api_key_not_found ],
     Stopped).
Proof.
  apply (@missing_credential_stops_script
           (world_with_sources None [(utf8 "HOME", utf8 "/root")])).
  - right. left. eexists. reflexivity.
  - left. reflexivity.
Defined.

(* ===================================================================== *)
(** ** How a run ends *)
(* ===================================================================== *)




(* ===================================================================== *)
(** ** Calls of the provider in a run *)
(* ===================================================================== *)

Lemma get_api_key_trace_streamlit (w : World) (e : event) :
  In e (trace (get_api_key w)) -> is_streamlit_call e = true.
Proof.
  rewrite get_api_key_eq.
  destruct (secret_credential w) as [v |];
    [| destruct (os_getenv w GEMINI_API_KEY) as [[| c k] |]];
    simpl; intros H; each_event H.
Qed.

Lemma after_listing_trace_streamlit (w : World) (e : event) :
  In e (trace (after_listing w)) -> is_streamlit_call e = true.
Proof.
  unfold after_listing.
  destruct (list_models w) as [models | err];
    [destruct (str_in FREE_GEMINI_MODEL (available_models_of models));
     [| destruct (str_in fallback_model (available_models_of models))] |];
    simpl; intros H; each_event H.
Qed.

(** A list whose members all fail a test is filtered to nothing. *)
Lemma filter_none (A : Type) (f : A -> bool) (l : list A) :
  (forall x, In x l -> f x = false) -> filter f l = [].
Proof.
  induction l as [| x l IH]; intros H; simpl; [reflexivity |].
  rewrite (H x (or_introl eq_refl)). apply IH.
  intros y Hy. apply H. now right.
Qed.

Lemma streamlit_not_generation (e : event) :
  is_streamlit_call e = true -> is_generation_call e = false.
Proof. destruct e; simpl; congruence. Qed.

Lemma streamlit_not_listing (e : event) :
  is_streamlit_call e = true -> is_listing_call e = false.
Proof. destruct e; simpl; congruence. Qed.

(** A trace of Streamlit calls holds no call of the provider. *)
Lemma streamlit_only_calls (t : list event) :
  (forall e, In e t -> is_streamlit_call e = true) ->
  filter is_generation_call t = [] /\ filter is_listing_call t = [].
Proof.
  intros H. split; apply filter_none; intros e He;
    [apply streamlit_not_generation | apply streamlit_not_listing]; auto.
Qed.

(** The calls [configure_gemini] makes: no generation, at most one
    listing. *)
Lemma configure_gemini_calls (w : World) :
  filter is_generation_call (trace (configure_gemini w)) = []
  /\ (List.length (filter is_listing_call (trace (configure_gemini w)))
      <= 1)%nat.
Proof.
  rewrite configure_gemini_eq.
  destruct (streamlit_only_calls _ (get_api_key_trace_streamlit w))
    as [Hkg Hkl].
  destruct (streamlit_only_calls _ (after_listing_trace_streamlit w))
    as [Hag Hal].
  destruct (get_api_key w) as [t0 [[| c k] | e |]];
    cbn [trace fst] in *;
    try (rewrite Hkg, Hkl; split; [reflexivity | simpl; lia]).
  change (t0 ++ ?x :: ?y :: ?z) with (t0 ++ [x; y] ++ z).
  rewrite !filter_app, Hkg, Hkl, Hag, Hal. simpl.
  split; [reflexivity | lia].
Qed.

(** The calls [main] makes: no listing, at most one generation. *)
Lemma main_calls (w : World) (model : option GenerativeModel) :
  filter is_listing_call (trace (main w model)) = []
  /\ (List.length (filter is_generation_call (trace (main w model)))
      <= 1)%nat.
Proof.
  rewrite main_unfold.
  destruct (generate_button w && str_truthy (strip (user_story_prompt w)));
    [| split; [reflexivity | simpl; lia]].
  cbn [trace fst]. rewrite !filter_app.
  change (filter is_listing_call (page w)) with (@nil event).
  change (filter is_generation_call (page w)) with (@nil event).
  unfold on_click.
  destruct (generate_sgu_story_cases w (strip (user_story_prompt w)) model)
    as [(_ & ->) | [(m & r & _ & _ & ->) | (m & e & _ & _ & ->)]];
    simpl; rewrite ?display_result_classify; simpl.
  - split; [reflexivity | lia].
  - destruct (classify (story_text_of r) (Response.prompt_feedback r));
      simpl; split; first [reflexivity | lia].
  - split; [reflexivity | lia].
Qed.

(** X5. A run of the script asks the provider for the list of models at
    most once and for a story at most once, whatever the user and the
    provider do; there is no retry. *)
Theorem at_most_one_call_per_run :
  forall w : World,
    (List.length (filter is_listing_call (trace (script w))) <= 1)%nat
    /\ (List.length (filter is_generation_call (trace (script w))) <= 1)%nat.
Proof.
  intros w.
  destruct (configure_gemini_calls w) as [Hcg Hcl].
  destruct (configure_gemini w) as [t0 [[m |] | e |]] eqn:E;
    cbn [trace fst] in Hcg, Hcl.
  - rewrite (script_with_model _ E). cbn [trace fst].
    destruct (main_calls w (Some m)) as [Hml Hmg].
    change (?x :: t0 ++ ?y) with ([x] ++ t0 ++ y).
    rewrite !filter_app, Hcg, Hml. simpl.
    rewrite !app_nil_r. split; assumption.
  - unfold script. rewrite E. simpl.
    rewrite !filter_app, Hcg. simpl. rewrite ?app_nil_r.
    split; [exact Hcl | lia].
  - unfold script. rewrite E. simpl. rewrite Hcg.
    split; [exact Hcl | simpl; lia].
  - rewrite (script_stopped _ E). simpl. rewrite Hcg.
    split; [exact Hcl | simpl; lia].
Qed.

(* ===================================================================== *)
(** ** The prompt that reaches the provider *)
(* ===================================================================== *)

Lemma full_prompt_length (u : str) :
  List.length (full_prompt u)
  = (List.length (full_prompt []) + List.length u)%nat.
Proof. unfold full_prompt. rewrite !length_app. simpl. lia. Qed.

Lemma full_prompt_empty_length : List.length (full_prompt []) = 3376%nat.
Proof. vm_compute. reflexivity. Qed.

(** Any generation call of [main] carries the prompt built from the
    stripped input, which is not empty. *)
Lemma main_generation_call (w : World) (model : option GenerativeModel)
      (e : event) :
  In e (trace (main w model)) -> is_generation_call e = true ->
  strip (user_story_prompt w) <> []
  /\ exists m, model = Some m
               /\ e = genai_generate_content
                        m (full_prompt (strip (user_story_prompt w)))
                        generation_config safety_settings.
Proof.
  rewrite main_unfold. intros Hin Hcall.
  destruct (generate_button w);
    cbn [andb trace fst] in Hin;
    [| apply page_no_generation_call in Hin; congruence].
  destruct (strip (user_story_prompt w)) as [| c s] eqn:E;
    cbn [str_truthy trace fst] in Hin;
    [apply page_no_generation_call in Hin; congruence |].
  split; [discriminate |].
  apply in_app_or in Hin as [Hin | Hin];
    [apply page_no_generation_call in Hin; congruence |].
  rewrite <- E. now apply on_click_generation_call.
Qed.

(** What [lstrip] removes is whitespace. *)
Lemma lstrip_split (s : str) :
  exists sp, s = sp ++ lstrip s /\ forallb isspace sp = true.
Proof.
  induction s as [| c s (sp & Hs & Hsp)]; simpl; [now exists [] |].
  destruct (isspace c) eqn:E.
  - exists (c :: sp). simpl. rewrite E, Hsp.
    split; [now f_equal | reflexivity].
  - now exists [].
Qed.

Lemma lstrip_fixed (u : str) :
  (forall c t, u = c :: t -> isspace c = false) -> lstrip u = u.
Proof.
  destruct u as [| c t]; intros H; simpl; [reflexivity |].
  now rewrite (H c t eq_refl).
Qed.

(** The stripped text ends with no whitespace. *)
Lemma strip_last (s : str) (c : char) (t : str) :
  rev (strip s) = c :: t -> isspace c = false.
Proof.
  unfold strip, rstrip. rewrite rev_involutive. apply lstrip_head.
Qed.

(** The stripped text starts with no whitespace. *)
Lemma strip_head (s : str) (c : char) (t : str) :
  strip s = c :: t -> isspace c = false.
Proof.
  unfold strip, rstrip. intros H.
  destruct (lstrip_split (rev (lstrip s))) as (sp & Hs & _).
  apply (f_equal (@rev char)) in Hs.
  rewrite rev_involutive, rev_app_distr, H in Hs. simpl in Hs.
  now apply lstrip_head in Hs.
Qed.

(** Stripping a stripped text changes nothing. *)
Lemma strip_idempotent (s : str) : strip (strip s) = strip s.
Proof.
  set (u := strip s).
  assert (H1 : lstrip u = u) by (apply lstrip_fixed; apply strip_head).
  assert (H2 : lstrip (rev u) = rev u)
    by (apply lstrip_fixed; apply strip_last).
  unfold strip at 1, rstrip. rewrite H1, H2. apply rev_involutive.
Qed.

(** X6. Whenever the typed text has at most 500 characters, as the text
    area enforces, the prompt of any generation call has more than 3376 and
    at most 3876 characters: the fixed template and context, plus the
    stripped input, which is not empty. *)
Theorem prompt_length_bound :
  forall (w : World) (model : option GenerativeModel) (m : GenerativeModel)
         (contents : str) (cfg : GenerationConfig)
         (ss : list SafetySetting),
    In (genai_generate_content m contents cfg ss) (trace (main w model)) ->
    (List.length (user_story_prompt w) <= 500)%nat ->
    (3376 < List.length contents)%nat /\ (List.length contents <= 3876)%nat.
Proof.
  intros w model m contents cfg ss Hin Hlen.
  destruct (main_generation_call _ _ _ Hin eq_refl)
    as (Hne & m' & _ & Heq).
  injection Heq as _ -> _ _.
  rewrite full_prompt_length, full_prompt_empty_length.
  pose proof (strip_length (user_story_prompt w)).
  destruct (strip (user_story_prompt w)); [congruence |]. simpl in *. lia.
Qed.

Lemma prompt_length_bound_witness :
  (3376 < List.length (full_prompt (utf8 "a cat")))%nat
  /\ (List.length (full_prompt (utf8 "a cat")) <= 3876)%nat.
Proof.
  refine (@prompt_length_bound
            (world_answering (utf8 " a cat ") (Failure []))
            (Some a_model) a_model (full_prompt (utf8 "a cat"))
            generation_config safety_settings _ _).
  - vm_compute. do 9 right. left. reflexivity.
  - vm_compute. lia.
Defined.

(** X7. The input embedded in the prompt of any generation call is trimmed:
    it is not empty, it neither starts nor ends with a whitespace character,
    and stripping it again changes nothing. *)
Theorem prompt_carries_trimmed_input :
  forall (w : World) (model : option GenerativeModel) (m : GenerativeModel)
         (contents : str) (cfg : GenerationConfig)
         (ss : list SafetySetting),
    In (genai_generate_content m contents cfg ss) (trace (main w model)) ->
    exists u,
      contents = full_prompt u
      /\ u <> []
      /\ strip u = u
      /\ (forall c t, u = c :: t -> isspace c = false)
      /\ (forall c t, rev u = c :: t -> isspace c = false).
Proof.
  intros w model m contents cfg ss Hin.
  destruct (main_generation_call _ _ _ Hin eq_refl)
    as (Hne & m' & _ & Heq).
  injection Heq as _ -> _ _.
  exists (strip (user_story_prompt w)).
  split; [reflexivity |]. split; [exact Hne |].
  split; [apply strip_idempotent |].
  split; [apply strip_head | apply strip_last].
Qed.

Lemma prompt_carries_trimmed_input_witness :
  exists u, full_prompt (utf8 "a cat") = full_prompt u /\ strip u = u.
Proof.
  destruct (@prompt_carries_trimmed_input
              (world_answering (utf8 " a cat ") (Failure []))
              (Some a_model) a_model (full_prompt (utf8 "a cat"))
              generation_config safety_settings
              ltac:(vm_compute; do 9 right; left; reflexivity))
    as (u & Hu & _ & Hs & _).
  exists u. split; [exact Hu | exact Hs].
Defined.

(* ===================================================================== *)
(** ** What model selection depends on *)
(* ===================================================================== *)

Lemma str_in_ext (x : str) (l l' : list str) :
  (forall y, In y l <-> In y l') -> str_in x l = str_in x l'.
Proof.
  intros H. destruct (str_in x l') eqn:E.
  - apply str_in_In, H, str_in_In, E.
  - apply str_in_false. intros Hin. apply H, str_in_In in Hin. congruence.
Qed.

Lemma available_models_of_ext (models models' : list ModelInfo.t) :
  (forall mi, In mi models <-> In mi models') ->
  forall n, In n (available_models_of models)
            <-> In n (available_models_of models').
Proof.
  intros H n. rewrite !available_models_of_In.
  split; intros (mi & Hin & Hrest); exists mi; (split; [apply H |]);
    assumption.
Qed.

(** X8. The selected model does not depend on the order in which the
    provider lists its models, nor on repeated entries: two listings with
    the same members give the same outcome of [configure_gemini]. *)
Theorem selection_ignores_listing_order :
  forall (w w' : World) (t0 t0' : list event) (k k' : str)
         (models models' : list ModelInfo.t),
    get_api_key w = (t0, Returned k) -> k <> [] ->
    get_api_key w' = (t0', Returned k') -> k' <> [] ->
    list_models w = Success models ->
    list_models w' = Success models' ->
    (forall mi, In mi models <-> In mi models') ->
    result (configure_gemini w) = result (configure_gemini w').
Proof.
  intros w w' t0 t0' k k' models models' Hk Hne Hk' Hne' Hl Hl' Hsame.
  rewrite !configure_gemini_eq, Hk, Hk'.
  destruct k as [| c k]; [congruence |].
  destruct k' as [| c' k']; [congruence |].
  cbn [result snd]. unfold after_listing. rewrite Hl, Hl'.
  pose proof (available_models_of_ext _ _ Hsame) as Hav.
  rewrite (str_in_ext FREE_GEMINI_MODEL _ _ Hav),
          (str_in_ext fallback_model _ _ Hav).
  destruct (str_in FREE_GEMINI_MODEL (available_models_of models'));
    [reflexivity |].
  destruct (str_in fallback_model (available_models_of models'));
    reflexivity.
Qed.

Lemma selection_ignores_listing_order_witness :
  result (configure_gemini
            (world_offering [fallback_model; utf8 "models/x";
                             FREE_GEMINI_MODEL]))
  = result (configure_gemini
              (world_offering [FREE_GEMINI_MODEL; FREE_GEMINI_MODEL;
                               utf8 "models/x"; fallback_model])).
Proof.
  refine (@selection_ignores_listing_order
            (world_offering [fallback_model; utf8 "models/x";
                             FREE_GEMINI_MODEL])
            (world_offering [FREE_GEMINI_MODEL; FREE_GEMINI_MODEL;
                             utf8 "models/x"; fallback_model])
            _ _ (utf8 "k3y") (utf8 "k3y") _ _
            eq_refl _ eq_refl _ eq_refl eq_refl _).
  - discriminate.
  - discriminate.
  - intros mi. simpl. tauto.
Defined.

(** X9. [configure_gemini] never returns a model the provider did not
    offer: a selected model bears the primary or the fallback name, and some
    listed model of that name supports generateContent. *)
Theorem selected_model_is_on_offer :
  forall (w : World) (m : GenerativeModel),
    result (configure_gemini w) = Returned (Some m) ->
    (model_name m = FREE_GEMINI_MODEL \/ model_name m = fallback_model)
    /\ exists models mi,
        list_models w = Success models
        /\ In mi models
        /\ ModelInfo.name mi = model_name m
        /\ In (utf8 "generateContent")
              (ModelInfo.supported_generation_methods mi).
Proof.
  intros w m. rewrite configure_gemini_eq.
  destruct (get_api_key w) as [t0 [[| c k] | e |]]; cbn [result snd];
    try discriminate.
  unfold after_listing.
  destruct (list_models w) as [models | e]; [| discriminate].
  destruct (str_in FREE_GEMINI_MODEL (available_models_of models)) eqn:E1;
    [| destruct (str_in fallback_model (available_models_of models)) eqn:E2];
    cbn [result snd]; intros H; try discriminate;
    injection H as <-; simpl.
  - split; [now left |].
    apply str_in_In, available_models_of_In in E1 as (mi & H1 & H2 & H3).
    now exists models, mi.
  - split; [now right |].
    apply str_in_In, available_models_of_In in E2 as (mi & H1 & H2 & H3).
    now exists models, mi.
Qed.

Lemma selected_model_is_on_offer_witness :
  exists models mi,
    list_models (world_offering [utf8 "models/x"; fallback_model])
    = Success models
    /\ In mi models
    /\ ModelInfo.name mi = fallback_model.
Proof.
  destruct (proj2 (@selected_model_is_on_offer
                     (world_offering [utf8 "models/x"; fallback_model])
                     {| model_name := fallback_model |} eq_refl))
    as (models & mi & H1 & H2 & H3 & _).
  exists models, mi. repeat split; assumption.
Defined.

(* ===================================================================== *)
(** ** The credential and what the user sees *)
(* ===================================================================== *)




(* ===================================================================== *)
(** ** A successful run, and where a download comes from *)
(* ===================================================================== *)



Lemma classify_render (story_text : option str)
      (feedback : option PromptFeedback.t) (story : str) :
  classify story_text feedback = RenderStory story ->
  story_text = Some story /\ story <> [].
Proof.
  destruct story_text as [[| c s] |]; destruct feedback as [[[reason |]] |];
    simpl; intros H; try discriminate; injection H as <-;
    (split; [reflexivity | discriminate]).
Qed.

Lemma page_no_download (w : World) (e : event) :
  In e (page w) -> is_download_button e = false.
Proof. unfold page. simpl. intros H. each_event H. Qed.

(** X12. [main] offers a download only for a text the provider returned: a
    download button in its trace means that a model is set, that the
    generation call for the stripped input succeeded with a non-empty text,
    that the content of the download is that text, and that the same text is
    shown on the page. *)
Theorem download_only_of_provider_text :
  forall (w : World) (model : option GenerativeModel)
         (label data file_name mime : str) (ucw : bool) (key : str),
    In (st_download_button label data file_name mime ucw key)
       (trace (main w model)) ->
    exists m r,
      model = Some m
      /\ generate_content w m (full_prompt (strip (user_story_prompt w)))
                          generation_config safety_settings = Success r
      /\ story_text_of r = Some data
      /\ data <> []
      /\ In (st_markdown data false) (trace (main w model)).
Proof.
  intros w model label data file_name mime ucw key.
  rewrite main_unfold.
  destruct (generate_button w && str_truthy (strip (user_story_prompt w)));
    cbn [trace fst]; intros Hin;
    [| apply page_no_download in Hin; discriminate].
  apply in_app_or in Hin as [Hin | Hin];
    [apply page_no_download in Hin; discriminate |].
  unfold on_click in *.
  destruct (generate_sgu_story_cases w (strip (user_story_prompt w)) model)
    as [(_ & Hg) | [(m & r & -> & Hcall & Hg) | (m & e & _ & _ & Hg)]];
    rewrite Hg in *; clear Hg; cbn [bind emit] in *;
    rewrite ?display_result_classify in *; cbn [trace fst app] in *.
  - simpl in Hin. destruct Hin as [Hin | [Hin | []]]; discriminate.
  - destruct (classify (story_text_of r) (Response.prompt_feedback r))
      as [story | reason | |] eqn:Ec; simpl in Hin;
      repeat (destruct Hin as [Hin | Hin]; [try discriminate |]);
      try contradiction.
    injection Hin as _ <- _ _ _ _.
    apply classify_render in Ec as [Hst Hne].
    exists m, r. repeat split; trivial.
    apply in_or_app. right. simpl. do 5 right. left. reflexivity.
  - simpl in Hin.
    destruct Hin as [Hin | [Hin | [Hin | [Hin | []]]]]; discriminate.
Qed.

Lemma download_only_of_provider_text_witness :
  exists m r,
    Some a_model = Some m
    /\ generate_content
         (world_answering
            (utf8 "a cat")
            (Success {| Response.parts := Some hello_world_parts;
                        Response.text := None;
                        Response.prompt_feedback := None |}))
         m (full_prompt (utf8 "a cat")) generation_config safety_settings
       = Success r
    /\ story_text_of r = Some (utf8 "Hello world").
Proof.
  destruct (@download_only_of_provider_text
              (world_answering
                 (utf8 "a cat")
                 (Success {| Response.parts := Some hello_world_parts;
                             Response.text := None;
                             Response.prompt_feedback := None |}))
              (Some a_model)
              (utf8 "📥 Download Story (.txt)") (utf8 "Hello world")
              (utf8 "sgu_story_20250409_120007.txt") (utf8 "text/plain")
              true (utf8 "download_20250409_120007")
              ltac:(vm_compute; do 14 right; left; reflexivity))
    as (m & r & H1 & H2 & H3 & _).
  exists m, r. repeat split; assumption.
Defined.

(* ===================================================================== *)
(** ** What a generation call can be *)
(* ===================================================================== *)

Lemma filter_nil_In (A : Type) (f : A -> bool) (l : list A) (x : A) :
  filter f l = [] -> In x l -> f x = false.
Proof.
  intros Hf Hin. destruct (f x) eqn:E; [| reflexivity].
  assert (H : In x (filter f l)) by (apply filter_In; now split).
  rewrite Hf in H. contradiction.
Qed.

Lemma configure_gemini_model_names (w : World) (t0 : list event)
      (m : GenerativeModel) :
  configure_gemini w = (t0, Returned (Some m)) ->
  m = {| model_name := FREE_GEMINI_MODEL |}
  \/ m = {| model_name := fallback_model |}.
Proof.
  rewrite configure_gemini_eq.
  destruct (get_api_key w) as [t [[| c k] | e |]]; try discriminate.
  unfold after_listing.
  destruct (list_models w) as [models | e]; [| discriminate].
  destruct (str_in FREE_GEMINI_MODEL (available_models_of models));
    [| destruct (str_in fallback_model (available_models_of models))];
    cbn [trace fst result snd]; intros H; try discriminate;
    injection H as _ <-; [now left | now right].
Qed.

Lemma footer_no_generation_call (e : event) :
  In e (trace display_footer) -> is_generation_call e = false.
Proof. simpl. intros H. each_event H. Qed.

(** X13. Whatever the user types and the provider lists, a generation call
    made by the script goes to the primary or to the fallback model, with
    the fixed generation settings and the four fixed safety settings, and
    with the prompt built from the stripped input. *)
Theorem generation_call_is_fixed :
  forall (w : World) (m : GenerativeModel) (contents : str)
         (cfg : GenerationConfig) (ss : list SafetySetting),
    In (genai_generate_content m contents cfg ss) (trace (script w)) ->
    (m = {| model_name := FREE_GEMINI_MODEL |}
     \/ m = {| model_name := fallback_model |})
    /\ contents = full_prompt (strip (user_story_prompt w))
    /\ cfg = generation_config
    /\ ss = safety_settings
    /\ List.length ss = 4%nat
    /\ (forall s, In s ss -> threshold s = utf8 "BLOCK_MEDIUM_AND_ABOVE").
Proof.
  intros w m contents cfg ss Hin.
  destruct (configure_gemini_calls w) as [Hcg _].
  assert (Hno : forall t0 o, configure_gemini w = (t0, o) ->
                ~ In (genai_generate_content m contents cfg ss) t0).
  { intros t0 o E H. rewrite E in Hcg.
    apply (filter_nil_In _ _ _ Hcg) in H. discriminate. }
  destruct (configure_gemini w) as [t0 [[m0 |] | e |]] eqn:E.
  - rewrite (script_with_model _ E) in Hin. cbn [trace fst] in Hin.
    destruct Hin as [Hin | Hin]; [discriminate |].
    apply in_app_or in Hin as [Hin | Hin];
      [now apply (Hno _ _ eq_refl) in Hin |].
    apply in_app_or in Hin as [Hin | Hin];
      [| apply footer_no_generation_call in Hin; discriminate].
    destruct (main_generation_call _ _ _ Hin eq_refl)
      as (_ & m' & Hm & Heq).
    injection Hm as <-. injection Heq as -> -> -> ->.
    split; [exact (configure_gemini_model_names _ E) |].
    repeat split.
    intros s Hs. simpl in Hs.
    repeat (destruct Hs as [<- | Hs]; [reflexivity |]). contradiction.
  - unfold script in Hin. rewrite E in Hin. simpl in Hin.
    destruct Hin as [Hin | Hin]; [discriminate |].
    apply in_app_or in Hin as [Hin | Hin];
      [now apply (Hno _ _ eq_refl) in Hin |].
    destruct Hin as [Hin | []]; discriminate.
  - unfold script in Hin. rewrite E in Hin. simpl in Hin.
    destruct Hin as [Hin | Hin]; [discriminate |].
    now apply (Hno _ _ eq_refl) in Hin.
  - rewrite (script_stopped _ E) in Hin. simpl in Hin.
    destruct Hin as [Hin | Hin]; [discriminate |].
    now apply (Hno _ _ eq_refl) in Hin.
Qed.

Lemma generation_call_is_fixed_witness :
  (a_model = {| model_name := FREE_GEMINI_MODEL |}
   \/ a_model = {| model_name := fallback_model |})
  /\ full_prompt (utf8 "a cat")
     = full_prompt
         (strip (user_story_prompt
                   (world_answering (utf8 " a cat ") (Failure [])))).
Proof.
  destruct (@generation_call_is_fixed
              (world_answering (utf8 " a cat ") (Failure []))
              a_model (full_prompt (utf8 "a cat"))
              generation_config safety_settings
              ltac:(vm_compute; do 14 right; left; reflexivity))
    as (H1 & H2 & _).
  split; [exact H1 | exact H2].
Defined.
